(** * lstm/datasets.py: sliding windows and the chronological data module

    A shallow embedding of [TimeseriesDataset] and
    [PowerConsumptionDataModule].  Python integers are [Z], the array
    attributes of an instance are a finite map from their names, as in the
    instance dictionary, raised exceptions are the [Raise] results of an
    error monad, and the methods of the data module run in a
    state-and-error monad over the instance and the standard output.

    The collaborators (torch tensors and loaders, pandas series,
    scikit-learn's splitter and scaler) are modelled by what the code uses
    of them, their refusals included; the floating-point arithmetic of the
    scaler and of the tensor conversion stays abstract. *)

From Stdlib Require Import QArith Qround.
From stdpp Require Import base numbers list strings gmap.

Local Open Scope Z_scope.

(** ** Exceptions and results *)

Inductive exn : Type :=
  | IndexError
  | AttributeError
  | KeyError
  | ValueError
  | RuntimeError
  | OSError.

Inductive result (A : Type) : Type :=
  | Ok (a : A)
  | Raise (e : exn).

Arguments Ok {A} a.
Arguments Raise {A} e.

Definition fails {A} (r : result A) : Prop := ∃ e, r = Raise e.

#[global] Instance result_ret : MRet result := fun _ a => Ok a.
#[global] Instance result_bind : MBind result := fun _ _ f r =>
  match r with
  | Ok a => f a
  | Raise e => Raise e
  end.

(** ** Sequences indexed the Python way *)

Definition len {A} (l : list A) : Z := Z.of_nat (length l).

(** [l[start:stop]] with step 1: negative bounds count from the end, and
    both bounds are clamped to the sequence, so a slice never raises. *)
Definition slice {A} (l : list A) (start stop : Z) : list A :=
  let n := len l in
  let a := if start <? 0 then start + n else start in
  let b := if stop <? 0 then stop + n else stop in
  let a := if a <? 0 then 0 else if n <=? a then n else a in
  let b := if b <? a then a else if n <=? b then n else b in
  take (Z.to_nat (b - a)) (drop (Z.to_nat a) l).

(** The signed 64-bit integers, into which a tensor index is unpacked. *)
Definition int64 (z : Z) : bool :=
  (-9223372036854775808 <=? z) && (z <=? 9223372036854775807).

Abbreviation int64_max := 9223372036854775807.

(** [t[j]] on a tensor: the index is unpacked into 64 bits, which fails
    with the overflow [ValueError] when it does not fit; then a negative
    index counts from the end, and an index outside [-len t, len t) raises
    [IndexError]. *)
Definition item {A} (l : list A) (j : Z) : result A :=
  let n := len l in
  if negb (int64 j) then Raise ValueError
  else if (j <? - n) || (n <=? j) then Raise IndexError
  else match l !! Z.to_nat (if j <? 0 then j + n else j) with
       | Some a => Ok a
       | None => Raise IndexError
       end.

(** ** Arrays *)

(** A cell of a table or of an array: a floating-point number of the
    abstract type [V], or the missing marker. *)
Inductive cell (V : Type) : Type :=
  | NaN
  | Num (v : V).

Arguments NaN {V}.
Arguments Num {V} v.

Definition isna {V} (c : cell V) : bool :=
  match c with
  | NaN => true
  | Num _ => false
  end.

Abbreviation row V := (list (cell V)).
Abbreviation ndarray V := (list (row V)).

(** An attribute or argument that holds an array or Python's [None]. *)
Abbreviation value V := (option (ndarray V)).

Definition is_not_None {V} (v : value V) : bool :=
  match v with
  | None => false
  | Some _ => true
  end.

(** [torch.tensor]: an array becomes a tensor with the same rows; [None]
    has no dtype and is refused with a [RuntimeError].  The sizes of an
    array are signed 64-bit integers: a list longer than that stands for no
    array, none can be built, and the model refuses it here. *)
Definition torch_tensor {V} (v : value V) : result (ndarray V) :=
  match v with
  | Some a =>
      if len a <=? 9223372036854775807 then Ok a else Raise RuntimeError
  | None => Raise RuntimeError
  end.

(** ** TimeseriesDataset *)

Module TimeseriesDataset.
Section Methods.

(** The floating-point numbers, and the conversion to single precision
    that [.float()] applies to each of them. *)
Context {V : Type} (float32 : V → V).

Definition float_cell (c : cell V) : cell V :=
  match c with
  | NaN => NaN
  | Num v => Num (float32 v)
  end.

Definition float (a : ndarray V) : ndarray V := map (map float_cell) a.

Record t : Type := mk { X : ndarray V; y : ndarray V; seq_len : Z }.

Definition __init__ (X y : value V) (seq_len : Z) : result t :=
  tX ← torch_tensor X;
  ty ← torch_tensor y;
  mret (mk (float tX) (float ty) seq_len).

Definition __len__ (self : t) : result Z :=
  Ok (len (X self) - (seq_len self - 1)).

Definition __getitem__ (self : t) (index : Z) : result (ndarray V * row V) :=
  let x := slice (X self) index (index + seq_len self) in
  y ← item (y self) (index + seq_len self - 1);
  mret (x, y).

(** The built-in [len(self)]: a negative [__len__] is refused. *)
Definition builtin_len (self : t) : result Z :=
  n ← __len__ self;
  if n <? 0 then Raise ValueError else Ok n.

End Methods.
End TimeseriesDataset.

(** ** pandas: frames and series *)

Module pd.

Record frame (V : Type) : Type :=
  Frame { columns : list string; rows : list (row V) }.

Arguments Frame {V} columns rows.
Arguments columns {V} f.
Arguments rows {V} f.

(** The cell of a row under the column at position [k]; a row that is
    too short has a missing value there. *)
Definition cell_at {V} (r : row V) (k : nat) : cell V := default NaN (r !! k).

Definition complete {V} (width : nat) (r : row V) : bool :=
  forallb (λ k, negb (isna (cell_at r k))) (seq 0 width).

(** [df.dropna()]: the rows without a missing value, in their order. *)
Definition dropna {V} (df : frame V) : frame V :=
  Frame (columns df)
        (List.filter (complete (length (columns df))) (rows df)).

Fixpoint index_of (name : string) (names : list string) : option nat :=
  match names with
  | [] => None
  | c :: names' =>
      if String.eqb c name then Some O else S <$> index_of name names'
  end.

(** [df[name]]: the column as a series, or [KeyError]. *)
Definition getitem_column {V} (df : frame V) (name : string)
  : result (list (cell V)) :=
  match index_of name (columns df) with
  | Some k => Ok (map (λ r, cell_at r k) (rows df))
  | None => Raise KeyError
  end.

(** [s.shift(periods)]: the values move by [periods] positions and the
    vacated positions are missing. *)
Definition shift {V} (s : list (cell V)) (periods : Z) : list (cell V) :=
  let n := length s in
  if periods <? 0
  then let m := Nat.min (Z.to_nat (- periods)) n in
       drop m s ++ replicate m NaN
  else let m := Nat.min (Z.to_nat periods) n in
       replicate m NaN ++ take (n - m)%nat s.

Fixpoint ffill_from {V} (last : cell V) (s : list (cell V)) : list (cell V) :=
  match s with
  | [] => []
  | c :: s' =>
      let c' := if isna c then last else c in
      c' :: ffill_from c' s'
  end.

(** [s.ffill()]: a missing value takes the last value seen before it;
    leading missing values stay. *)
Definition ffill {V} (s : list (cell V)) : list (cell V) := ffill_from NaN s.

End pd.

(** [a.reshape((-1, 1))] of a one-dimensional array. *)
Definition reshape_column {V} (s : list (cell V)) : ndarray V :=
  map (λ c, [c]) s.

(** ** scikit-learn: the splitter without shuffling *)

Module sklearn.

(** Row counts of the two parts for a fractional [test_size] and no
    [train_size].  The source passes the binary floats 0.10 and 0.05; for
    them the rounded product [test_size * n_samples] has the ceiling of the
    exact rational product (ten times the float 0.10 is 1 + 2^-54, which is
    rounded away at every multiple of ten, and elsewhere the fractional
    part is at least a tenth), so the count is computed over [Q]. *)
Definition validate_shuffle_split (n_samples : Z) (test_size : Q)
  : result (Z * Z) :=
  if Qle_bool test_size 0 || Qle_bool 1 test_size then Raise ValueError
  else
    let n_test := Qceiling (test_size * inject_Z n_samples) in
    let n_train := n_samples - n_test in
    if n_train =? 0 then Raise ValueError else Ok (n_train, n_test).

(** [train_test_split(X, y, test_size=..., shuffle=False)]: the first
    [n_train] rows and the [n_test] rows after them, of both arrays. *)
Definition train_test_split {A B} (X : list A) (y : list B) (test_size : Q)
  : result (list A * list A * list B * list B) :=
  if negb (len X =? len y) then Raise ValueError
  else
    '(n_train, n_test) ← validate_shuffle_split (len X) test_size;
    mret (slice X 0 n_train, slice X n_train (n_train + n_test),
          slice y 0 n_train, slice y n_train (n_train + n_test)).

End sklearn.

(** ** PowerConsumptionDataModule *)

Module PowerConsumptionDataModule.
Section Methods.

(** The single-precision conversion of the tensors, and the
    [StandardScaler]: the parameters it fits and the transform it applies
    with them.  Both validate their input and raise on what they refuse
    (an infinite cell, for one). *)
Context {V : Type} (float32 : V → V).
Context {scaler : Type}.
Context (fit : ndarray V → result scaler).
Context (transform : scaler → ndarray V → result (ndarray V)).

(** The instance.  The attributes that hold arrays are kept as a finite
    map from their names, as in the instance dictionary: a name that was
    never assigned is not in it, and reading it raises [AttributeError].
    The attributes of the framework's base class are not modelled. *)
Record instance : Type := Instance {
  seq_len : Z;
  batch_size : Z;
  num_workers : Z;
  arrays : gmap string (value V);
  columns : option (list string);
  preprocessing : option scaler
}.

(** The instance together with what was printed so far. *)
Record world : Type := World { self : instance; stdout : list (pd.frame V) }.

Definition M (A : Type) : Type := world → result A * world.

#[local] Instance M_ret : MRet M := λ _ a w, (Ok a, w).
#[local] Instance M_bind : MBind M := λ _ _ f m w,
  match m w with
  | (Ok a, w') => f a w'
  | (Raise e, w') => (Raise e, w')
  end.

Definition lift {A} (r : result A) : M A := λ w, (r, w).

Definition get_self : M instance := λ w, (Ok (self w), w).

Definition getattr (name : string) : M (value V) := λ w,
  match arrays (self w) !! name with
  | Some v => (Ok v, w)
  | None => (Raise AttributeError, w)
  end.

Definition set_arrays (f : gmap string (value V) → gmap string (value V))
    (o : instance) : instance :=
  Instance (seq_len o) (batch_size o) (num_workers o) (f (arrays o))
           (columns o) (preprocessing o).

Definition set_columns (c : option (list string)) (o : instance) : instance :=
  Instance (seq_len o) (batch_size o) (num_workers o) (arrays o)
           c (preprocessing o).

Definition setattr (name : string) (v : value V) : M unit := λ w,
  (Ok (), World (set_arrays <[name := v]> (self w)) (stdout w)).

Definition setattr_columns (c : list string) : M unit := λ w,
  (Ok (), World (set_columns (Some c) (self w)) (stdout w)).

Definition print (X : pd.frame V) : M unit := λ w,
  (Ok (), World (self w) (stdout w ++ [X])).

(** [a and b], which evaluates [b] only when [a] holds. *)
Definition and_ (a b : M bool) : M bool :=
  x ← a; if x : bool then b else mret false.

Definition attr_is_not_None (name : string) : M bool :=
  v ← getattr name; mret (is_not_None v).

(** [super().__init__()] is the framework's; [columns] and [preprocessing]
    start as [None]. *)
Definition __init__ (seq_len batch_size num_workers : Z) : instance :=
  let self := Instance seq_len batch_size num_workers ∅ None None in
  let self := set_arrays <["X_train" := None]> self in
  let self := set_arrays <["y_train" := None]> self in
  let self := set_arrays <["X_val" := None]> self in
  let self := set_arrays <["y_val" := None]> self in
  let self := set_arrays <["X_test" := None]> self in
  let self := set_arrays <["X_test" := None]> self in
  self.

Definition prepare_data : M unit := mret ().

(** [setup(stage)].  [source] is the outcome of reading the file, sorting
    the table and dropping the listed columns: the table, or the exception
    raised on the way. *)
Definition setup (source : result (pd.frame V)) (stage : option string)
  : M unit :=
  done ← and_ (mret (bool_decide (stage = Some "fit")))
              (attr_is_not_None "X_train");
  if done : bool then mret () else
  done ← and_ (mret (bool_decide (stage = Some "test")))
              (attr_is_not_None "X_test");
  if done : bool then mret () else
  done ← and_ (mret (bool_decide (stage = None)))
              (and_ (attr_is_not_None "X_train") (attr_is_not_None "X_test"));
  if done : bool then mret () else
  df ← lift source;
  let X := pd.dropna df in
  print X;;
  deaths ← lift (pd.getitem_column X "Deaths");
  let y := pd.ffill (pd.shift deaths (-1)) in
  setattr_columns (pd.columns X);;
  '(X_cv, X_test, y_cv, y_test) ←
    lift (sklearn.train_test_split (pd.rows X) y 0.10);
  '(X_train, X_val, y_train, y_val) ←
    lift (sklearn.train_test_split X_cv y_cv 0.05);
  preprocessing ← lift (fit X_train);
  (if bool_decide (stage = Some "fit") || bool_decide (stage = None)
   then a ← lift (transform preprocessing X_train);
        setattr "X_train" (Some a);;
        setattr "y_train" (Some (reshape_column y_train));;
        b ← lift (transform preprocessing X_val);
        setattr "X_val" (Some b);;
        setattr "y_val" (Some (reshape_column y_val))
   else mret ());;
  (if bool_decide (stage = Some "test") || bool_decide (stage = None)
   then c ← lift (transform preprocessing X_test);
        setattr "X_test" (Some c);;
        setattr "y_test" (Some (reshape_column y_test))
   else mret ()).

(** The [DataLoader] as the arguments it was built from. *)
Record DataLoader : Type := mkDataLoader {
  dataset : TimeseriesDataset.t (V := V);
  dl_batch_size : Z;
  dl_shuffle : bool;
  dl_num_workers : Z
}.

(** [DataLoader(dataset, batch_size=..., shuffle=..., num_workers=...)]: a
    negative [num_workers] is refused, and so is a [batch_size] that is
    not positive, by the batch sampler built last. *)
Definition DataLoader_init (dataset : TimeseriesDataset.t (V := V))
    (batch_size : Z) (shuffle : bool) (num_workers : Z) : result DataLoader :=
  if num_workers <? 0 then Raise ValueError
  else if batch_size <=? 0 then Raise ValueError
  else Ok (mkDataLoader dataset batch_size shuffle num_workers).

Definition train_dataloader : M DataLoader :=
  X_train ← getattr "X_train";
  y_train ← getattr "y_train";
  o ← get_self;
  train_dataset ←
    lift (TimeseriesDataset.__init__ float32 X_train y_train (seq_len o));
  lift (DataLoader_init train_dataset (batch_size o) false (num_workers o)).

Definition val_dataloader : M DataLoader :=
  X_val ← getattr "X_val";
  y_val ← getattr "y_val";
  o ← get_self;
  val_dataset ←
    lift (TimeseriesDataset.__init__ float32 X_val y_val (seq_len o));
  lift (DataLoader_init val_dataset (batch_size o) false (num_workers o)).

Definition test_dataloader : M DataLoader :=
  X_test ← getattr "X_test";
  y_test ← getattr "y_test";
  o ← get_self;
  test_dataset ←
    lift (TimeseriesDataset.__init__ float32 X_test y_test (seq_len o));
  lift (DataLoader_init test_dataset (batch_size o) false (num_workers o)).

End Methods.
End PowerConsumptionDataModule.

(** * Outcomes of a call and whole lifecycles *)

Section Lifecycle.

Import PowerConsumptionDataModule.

Context {V : Type} (float32 : V → V).
Context {scaler : Type}.
Context (fit : ndarray V → result scaler).
Context (transform : scaler → ndarray V → result (ndarray V)).

Local Abbreviation world := (@PowerConsumptionDataModule.world V scaler).

(** The stages for which [setup] stores the train and validation arrays,
    and those for which it stores the test arrays. *)
Definition fit_stage (stage : option string) : Prop :=
  stage = Some "fit" ∨ stage = None.

Definition test_stage (stage : option string) : Prop :=
  stage = Some "test" ∨ stage = None.

(** The attribute [name] holds the array [a]; it holds [None]. *)
Definition holds (w : world) (name : string) (a : ndarray V) : Prop :=
  arrays (self w) !! name = Some (Some a).

Definition holds_None (w : world) (name : string) : Prop :=
  arrays (self w) !! name = Some None.

(** The data of [stage] is present: the condition under which [setup]
    returns at once. *)
Definition cached (stage : option string) (w : world) : Prop :=
  (stage = Some "fit" ∧ ∃ a, holds w "X_train" a)
  ∨ (stage = Some "test" ∧ ∃ a, holds w "X_test" a)
  ∨ (stage = None ∧ (∃ a, holds w "X_train" a) ∧ ∃ a, holds w "X_test" a).

(** The guards of [setup] can read their attributes. *)
Definition guards_read (w : world) : Prop :=
  is_Some (arrays (self w) !! "X_train")
  ∧ is_Some (arrays (self w) !! "X_test").

(** The attributes that a run of [setup] assigns for [stage] when it
    returns. *)
Definition assigned (stage : option string) : list string :=
  (if decide (fit_stage stage)
   then ["X_train"; "y_train"; "X_val"; "y_val"] else [])
  ++ (if decide (test_stage stage) then ["X_test"; "y_test"] else []).

(** What a run of [setup] on the cleaned table [X] leaves in [w'] when it
    got as far as the scaler and stored the arrays [kept]: these are held,
    every other array attribute is as it was in [w], and so is the
    configuration; [columns] was assigned and the table printed once. *)
Definition stored_as (kept : list (string * ndarray V)) (X : pd.frame V)
    (w w' : world) : Prop :=
  (∀ name a, (name, a) ∈ kept → holds w' name a)
  ∧ (∀ name, name ∉ kept.*1 →
       arrays (self w') !! name = arrays (self w) !! name)
  ∧ seq_len (self w') = seq_len (self w)
  ∧ batch_size (self w') = batch_size (self w)
  ∧ num_workers (self w') = num_workers (self w)
  ∧ preprocessing (self w') = preprocessing (self w)
  ∧ columns (self w') = Some (pd.columns X)
  ∧ stdout w' = stdout w ++ [X].

(** The arrays that a stage stores once the transforms returned. *)
Definition fit_arrays (a : ndarray V) (y_train : list (cell V))
    (b : ndarray V) (y_val : list (cell V)) : list (string * ndarray V) :=
  [("X_train", a); ("y_train", reshape_column y_train);
   ("X_val", b); ("y_val", reshape_column y_val)].

Definition test_arrays (c : ndarray V) (y_test : list (cell V))
  : list (string * ndarray V) :=
  [("X_test", c); ("y_test", reshape_column y_test)].

(** The train and validation branch of [setup] went through, storing
    [kept]: for the fit stage and no stage both transforms returned, for
    the other stages there is nothing to do.  Likewise the test branch. *)
Definition fit_done (stage : option string) (p : scaler)
    (X_train X_val : ndarray V) (y_train y_val : list (cell V))
    (kept : list (string * ndarray V)) : Prop :=
  (fit_stage stage
   ∧ ∃ a b, transform p X_train = Ok a ∧ transform p X_val = Ok b
            ∧ kept = fit_arrays a y_train b y_val)
  ∨ (¬ fit_stage stage ∧ kept = []).

Definition test_done (stage : option string) (p : scaler)
    (X_test : ndarray V) (y_test : list (cell V))
    (kept : list (string * ndarray V)) : Prop :=
  (test_stage stage
   ∧ ∃ c, transform p X_test = Ok c ∧ kept = test_arrays c y_test)
  ∨ (¬ test_stage stage ∧ kept = []).

(** How the last part of [setup] ends, from the fit of the scaler on: the
    fit raises; a transform raises, after the arrays before it were
    stored; or all is stored. *)
Inductive scaled (stage : option string) (X : pd.frame V)
    (X_train X_val X_test : ndarray V) (y_train y_val y_test : list (cell V))
    (w : world) : result unit → world → Prop :=
  | scaled_fit_raised e w' :
      fit X_train = Raise e →
      stored_as [] X w w' →
      scaled stage X X_train X_val X_test y_train y_val y_test w (Raise e) w'
  | scaled_train_raised p e w' :
      fit X_train = Ok p →
      fit_stage stage →
      transform p X_train = Raise e →
      stored_as [] X w w' →
      scaled stage X X_train X_val X_test y_train y_val y_test w (Raise e) w'
  | scaled_val_raised p a e w' :
      fit X_train = Ok p →
      fit_stage stage →
      transform p X_train = Ok a →
      transform p X_val = Raise e →
      stored_as [("X_train", a); ("y_train", reshape_column y_train)] X w w' →
      scaled stage X X_train X_val X_test y_train y_val y_test w (Raise e) w'
  | scaled_test_raised p kept e w' :
      fit X_train = Ok p →
      fit_done stage p X_train X_val y_train y_val kept →
      test_stage stage →
      transform p X_test = Raise e →
      stored_as kept X w w' →
      scaled stage X X_train X_val X_test y_train y_val y_test w (Raise e) w'
  | scaled_stored p kept kept' w' :
      fit X_train = Ok p →
      fit_done stage p X_train X_val y_train y_val kept →
      test_done stage p X_test y_test kept' →
      stored_as (kept ++ kept') X w w' →
      scaled stage X X_train X_val X_test y_train y_val y_test w (Ok ()) w'.

(** The facts of the split, gathered. *)
Definition split_of (df : pd.frame V) (deaths : list (cell V))
    (X_train X_val X_test : ndarray V) (y_train y_val y_test : list (cell V))
  : Prop :=
  pd.rows (pd.dropna df) = X_train ++ X_val ++ X_test
  ∧ pd.ffill (pd.shift deaths (-1)) = y_train ++ y_val ++ y_test
  ∧ len X_test = Qceiling (0.10 * inject_Z (len (pd.rows (pd.dropna df))))
  ∧ len X_val
    = Qceiling (0.05 * inject_Z (len (pd.rows (pd.dropna df)) - len X_test))
  ∧ len X_train = len (pd.rows (pd.dropna df)) - len X_test - len X_val
  ∧ 1 ≤ len X_train
  ∧ len y_train = len X_train
  ∧ len y_val = len X_val
  ∧ len y_test = len X_test.

(** What a dataloader does with the two attributes it reads. *)
Definition loader_of (X y : option (value V))
    (o : instance (V := V) (scaler := scaler))
  : result (DataLoader (V := V)) :=
  match X, y with
  | Some X, Some y =>
      ds ← TimeseriesDataset.__init__ float32 X y (seq_len o);
      DataLoader_init ds (batch_size o) false (num_workers o)
  | _, _ => Raise AttributeError
  end.

(** The two calls of the splitter in [setup] raise [e]: the first does,
    or the second does on what the first returned. *)
Definition split_raises {A B} (X : list A) (y : list B) (e : exn) : Prop :=
  sklearn.train_test_split X y 0.10 = Raise e
  ∨ ∃ X_cv X_test y_cv y_test,
      sklearn.train_test_split X y 0.10 = Ok (X_cv, X_test, y_cv, y_test)
      ∧ sklearn.train_test_split X_cv y_cv 0.05 = Raise e.

(** How a call of [setup] on [source] for [stage] in the world [w] can
    end: the result and the world it leaves. *)
Inductive outcome (source : result (pd.frame V)) (stage : option string)
    (w : world) : result unit → world → Prop :=
  | outcome_cached :
      cached stage w → outcome source stage w (Ok ()) w
  | outcome_no_attribute name :
      name = "X_train" ∨ name = "X_test" →
      arrays (self w) !! name = None →
      outcome source stage w (Raise AttributeError) w
  | outcome_source e :
      ¬ cached stage w →
      source = Raise e →
      outcome source stage w (Raise e) w
  | outcome_column df e :
      ¬ cached stage w →
      source = Ok df →
      pd.getitem_column (pd.dropna df) "Deaths" = Raise e →
      outcome source stage w (Raise e)
        (World (self w) (stdout w ++ [pd.dropna df]))
  | outcome_split df deaths e :
      ¬ cached stage w →
      source = Ok df →
      pd.getitem_column (pd.dropna df) "Deaths" = Ok deaths →
      split_raises (pd.rows (pd.dropna df))
        (pd.ffill (pd.shift deaths (-1))) e →
      outcome source stage w (Raise e)
        (World (set_columns (Some (pd.columns (pd.dropna df))) (self w))
               (stdout w ++ [pd.dropna df]))
  | outcome_scaled df deaths X_cv X_test y_cv y_test X_train X_val
      y_train y_val r w' :
      ¬ cached stage w →
      source = Ok df →
      pd.getitem_column (pd.dropna df) "Deaths" = Ok deaths →
      sklearn.train_test_split (pd.rows (pd.dropna df))
        (pd.ffill (pd.shift deaths (-1))) 0.10
      = Ok (X_cv, X_test, y_cv, y_test) →
      sklearn.train_test_split X_cv y_cv 0.05
      = Ok (X_train, X_val, y_train, y_val) →
      scaled stage (pd.dropna df) X_train X_val X_test y_train y_val y_test
        w r w' →
      outcome source stage w r w'.

(** The worlds reached from a new instance by calls of the dataloaders
    and of [setup], where no call of [setup] for a stage in [relevant]
    returned: such a call was not made, or it raised. *)
Inductive reached (relevant : option string → Prop) : world → Prop :=
  | reached_new (seq_len batch_size num_workers : Z) :
      reached relevant (World (__init__ seq_len batch_size num_workers) [])
  | reached_setup source stage w :
      reached relevant w →
      ¬ relevant stage →
      reached relevant (setup fit transform source stage w).2
  | reached_setup_raised source stage w e :
      reached relevant w →
      (setup fit transform source stage w).1 = Raise e →
      reached relevant (setup fit transform source stage w).2
  | reached_train_dataloader w :
      reached relevant w → reached relevant (train_dataloader float32 w).2
  | reached_val_dataloader w :
      reached relevant w → reached relevant (val_dataloader float32 w).2
  | reached_test_dataloader w :
      reached relevant w → reached relevant (test_dataloader float32 w).2.

(** The worlds reached from a new instance by calls of the dataloaders
    and of [setup] where [setup] was never called for a stage in
    [relevant]. *)
Inductive uncalled (relevant : option string → Prop) : world → Prop :=
  | uncalled_new (seq_len batch_size num_workers : Z) :
      uncalled relevant (World (__init__ seq_len batch_size num_workers) [])
  | uncalled_setup source stage w :
      uncalled relevant w →
      ¬ relevant stage →
      uncalled relevant (setup fit transform source stage w).2
  | uncalled_train_dataloader w :
      uncalled relevant w → uncalled relevant (train_dataloader float32 w).2
  | uncalled_val_dataloader w :
      uncalled relevant w → uncalled relevant (val_dataloader float32 w).2
  | uncalled_test_dataloader w :
      uncalled relevant w → uncalled relevant (test_dataloader float32 w).2.

(** The feature and target attributes of a split go together: the
    features are [None] and the targets are as the constructor left them,
    [unset], or both are arrays with the same number of rows. *)
Definition paired (w : world) (name_X name_y : string)
    (unset : option (value V)) : Prop :=
  (holds_None w name_X ∧ arrays (self w) !! name_y = unset)
  ∨ ∃ a b, holds w name_X a ∧ holds w name_y b ∧ length a = length b.

(** The worlds reached from a new instance by any calls of the methods. *)
Inductive lifecycle : world → Prop :=
  | lifecycle_new (seq_len batch_size num_workers : Z) :
      lifecycle (World (__init__ seq_len batch_size num_workers) [])
  | lifecycle_prepare_data w :
      lifecycle w → lifecycle (prepare_data w).2
  | lifecycle_setup source stage w :
      lifecycle w → lifecycle (setup fit transform source stage w).2
  | lifecycle_train_dataloader w :
      lifecycle w → lifecycle (train_dataloader float32 w).2
  | lifecycle_val_dataloader w :
      lifecycle w → lifecycle (val_dataloader float32 w).2
  | lifecycle_test_dataloader w :
      lifecycle w → lifecycle (test_dataloader float32 w).2.

End Lifecycle.

(** * Sample inputs *)

Definition X0 : ndarray Z := [[Num 1]; [Num 2]; [Num 3]].
Definition y0 : ndarray Z := [[Num 10]; [Num 20]; [Num 30]].

Definition deaths_table : pd.frame Z :=
  pd.Frame ["Confirmed"; "Deaths"]
    [[Num 100; Num 10]; [Num 120; Num 12]; [Num 150; NaN];
     [Num 150; Num 15]; [Num 170; Num 15]].

Definition later_table : pd.frame Z :=
  pd.Frame ["Confirmed"; "Deaths"]
    [[Num 200; Num 20]; [Num 210; Num 21]; [Num 230; Num 23]].


Definition no_deaths_table : pd.frame Z :=
  pd.Frame ["Confirmed"] [[Num 100]; [Num 120]; [Num 150]].

(** A scaler for the examples: it fits the number of rows and transforms
    nothing. *)
Definition fit0 (a : ndarray Z) : result Z := Ok (len a).
Definition transform0 (p : Z) (a : ndarray Z) : result (ndarray Z) := Ok a.

(** A scaler that refuses an array of a single row. *)
Definition transform1 (p : Z) (a : ndarray Z) : result (ndarray Z) :=
  if len a =? 1 then Raise ValueError else Ok a.

Definition world0 : PowerConsumptionDataModule.world (V := Z) (scaler := Z) :=
  PowerConsumptionDataModule.World
    (PowerConsumptionDataModule.__init__ 1 128 0) [].

(** * Properties *)

(** ** Slices and items *)

(** Settles the comparisons that the context decides, then splits on the
    others. *)
Ltac decide_compare :=
  repeat match goal with
    | |- context [?a <? ?b] =>
        first [ rewrite (proj2 (Z.ltb_lt a b)) by lia
              | rewrite (proj2 (Z.ltb_ge a b)) by lia ]
    | |- context [?a <=? ?b] =>
        first [ rewrite (proj2 (Z.leb_le a b)) by lia
              | rewrite (proj2 (Z.leb_gt a b)) by lia ]
    | |- context [?a =? ?b] =>
        first [ rewrite (proj2 (Z.eqb_eq a b)) by lia
              | rewrite (proj2 (Z.eqb_neq a b)) by lia ]
    end.

Ltac split_compare :=
  decide_compare;
  repeat (match goal with
    | |- context [?a <? ?b] => destruct (Z.ltb_spec a b)
    | |- context [?a <=? ?b] => destruct (Z.leb_spec a b)
    | |- context [?a =? ?b] => destruct (Z.eqb_spec a b)
    end; decide_compare);
  simpl; try lia; try done.

Lemma slice_inside {A} (l : list A) (a b : Z) :
  0 ≤ a → a ≤ b → b ≤ len l →
  slice l a b = take (Z.to_nat (b - a)) (drop (Z.to_nat a) l).
Proof.
  intros Ha Hab Hb. unfold slice. split_compare.
  - replace a with (len l) by lia. replace b with (len l) by lia. done.
  - replace b with (len l) by lia. done.
Qed.

Lemma slice_prefix {A} (l : list A) (b : Z) :
  0 ≤ b → b ≤ len l → slice l 0 b = take (Z.to_nat b) l.
Proof.
  intros. rewrite slice_inside by lia. rewrite Z.sub_0_r. done.
Qed.

Lemma slice_suffix {A} (l : list A) (a : Z) :
  0 ≤ a → a ≤ len l → slice l a (len l) = drop (Z.to_nat a) l.
Proof.
  intros. rewrite slice_inside by lia.
  apply take_ge. rewrite length_drop. unfold len. lia.
Qed.

Lemma item_inside {A} (l : list A) (j : Z) :
  len l ≤ int64_max →
  0 ≤ j → j < len l → ∃ a, l !! Z.to_nat j = Some a ∧ item l j = Ok a.
Proof.
  intros Hmax H0 Hlt. unfold item, int64. split_compare.
  destruct (lookup_lt_is_Some_2 l (Z.to_nat j)) as [a Ha].
  { unfold len in Hlt. lia. }
  exists a. by rewrite Ha.
Qed.

Lemma item_wraps {A} (l : list A) (j : Z) :
  len l ≤ int64_max →
  - len l ≤ j → j < 0 →
  ∃ a, l !! Z.to_nat (j + len l) = Some a ∧ item l j = Ok a.
Proof.
  intros Hmax H0 Hlt. unfold item, int64. split_compare.
  destruct (lookup_lt_is_Some_2 l (Z.to_nat (j + len l))) as [a Ha].
  { unfold len in *. lia. }
  exists a. by rewrite Ha.
Qed.

Lemma item_outside {A} (l : list A) (j : Z) :
  j < - len l ∨ len l ≤ j →
  item l j = if int64 j then Raise IndexError else Raise ValueError.
Proof.
  intros H. unfold item. destruct (int64 j); simpl; [|done]. split_compare.
Qed.

Lemma item_outside_int64 {A} (l : list A) (j : Z) :
  int64 j = true →
  j < - len l ∨ len l ≤ j → item l j = Raise IndexError.
Proof. intros Hj H. by rewrite item_outside, Hj. Qed.

Lemma int64_inside (n j : Z) :
  n ≤ int64_max → - n ≤ j < n → int64 j = true.
Proof. intros. unfold int64. split_compare. Qed.

Lemma item_fails_iff {A} (l : list A) (j : Z) :
  len l ≤ int64_max →
  fails (item l j) ↔ j < - len l ∨ len l ≤ j.
Proof.
  intros Hmax. split.
  - intros [e He].
    destruct (Z_lt_le_dec j (- len l)) as [|Hlo]; [by left|].
    destruct (Z_lt_le_dec j (len l)) as [Hhi|]; [|by right].
    destruct (Z_lt_le_dec j 0).
    + destruct (item_wraps l j) as (a & _ & Ha); [lia..|]. congruence.
    + destruct (item_inside l j) as (a & _ & Ha); [lia..|]. congruence.
  - intros H. rewrite (item_outside l j H). destruct (int64 j); by eexists.
Qed.

Lemma len_nonneg {A} (l : list A) : 0 ≤ len l.
Proof. unfold len. lia. Qed.

Lemma len_float {V} (f : V → V) (a : ndarray V) :
  len (TimeseriesDataset.float f a) = len a.
Proof. unfold len, TimeseriesDataset.float. by rewrite length_map. Qed.

(** ** The windowed dataset *)

Section Windows.

Context {V : Type} (float32 : V → V).

Abbreviation float := (TimeseriesDataset.float float32).
Abbreviation float_cell := (TimeseriesDataset.float_cell float32).

Lemma init_arrays (X y : ndarray V) (s : Z) (ds : TimeseriesDataset.t) :
  TimeseriesDataset.__init__ float32 (Some X) (Some y) s = Ok ds →
  ds = TimeseriesDataset.mk (float X) (float y) s.
Proof.
  unfold TimeseriesDataset.__init__, torch_tensor.
  destruct (len X <=? int64_max); simpl; [|done].
  destruct (len y <=? int64_max); simpl; [|done].
  by intros [= <-].
Qed.

(** The tensors of a dataset have sizes that fit in 64 bits. *)
Lemma init_sizes (X y : ndarray V) (s : Z) (ds : TimeseriesDataset.t) :
  TimeseriesDataset.__init__ float32 (Some X) (Some y) s = Ok ds →
  len (float X) ≤ int64_max ∧ len (float y) ≤ int64_max.
Proof.
  unfold TimeseriesDataset.__init__, torch_tensor. rewrite !len_float.
  destruct (Z.leb_spec (len X) int64_max); simpl; [|done].
  destruct (Z.leb_spec (len y) int64_max); simpl; [|done].
  done.
Qed.

Lemma float_lookup (a : ndarray V) (k : nat) :
  float a !! k = map float_cell <$> a !! k.
Proof. unfold TimeseriesDataset.float. apply list_lookup_fmap. Qed.

(** C1: for [X] and [y] of equal row count, a positive [seq_len] and an
    index [i] with [0 ≤ i < length()], [item(i)] returns the rows
    [i .. i+seq_len-1] of the feature tensor, which are [seq_len] many and
    are row by row those of [X] in single precision, paired with row
    [i+seq_len-1] of the target tensor. *)
Theorem getitem_returns_window (X y : ndarray V) (s i n : Z)
    (ds : TimeseriesDataset.t) :
  length X = length y →
  0 < s →
  TimeseriesDataset.__init__ float32 (Some X) (Some y) s = Ok ds →
  TimeseriesDataset.__len__ ds = Ok n →
  0 ≤ i < n →
  ∃ window target,
    TimeseriesDataset.__getitem__ ds i = Ok (window, target)
    ∧ window = take (Z.to_nat s) (drop (Z.to_nat i) (TimeseriesDataset.X ds))
    ∧ length window = Z.to_nat s
    ∧ (∀ k, (k < Z.to_nat s)%nat →
         window !! k = map float_cell <$> X !! (Z.to_nat i + k)%nat)
    ∧ TimeseriesDataset.y ds !! Z.to_nat (i + s - 1) = Some target
    ∧ Some target = map float_cell <$> y !! Z.to_nat (i + s - 1).
Proof.
  intros Hxy Hs Hinit Hlen Hi.
  pose proof (init_sizes _ _ _ _ Hinit) as [_ Hmax].
  apply init_arrays in Hinit as ->.
  unfold TimeseriesDataset.__len__ in Hlen. simpl in Hlen.
  injection Hlen as <-. rewrite len_float in Hi.
  destruct (item_inside (float y) (i + s - 1)) as (target & Hlook & Hitem).
  { done. }
  { lia. }
  { rewrite len_float. unfold len in *. lia. }
  exists (take (Z.to_nat s) (drop (Z.to_nat i) (float X))), target.
  unfold TimeseriesDataset.__getitem__. simpl. rewrite Hitem. simpl.
  rewrite slice_inside by (rewrite ?len_float; lia).
  replace (i + s - i) with s by lia.
  repeat split; try done.
  - rewrite length_take, length_drop.
    pose proof (len_float float32 X) as HlX. unfold len in *. lia.
  - intros k Hk. rewrite lookup_take_lt by done.
    rewrite lookup_drop. apply float_lookup.
  - rewrite <- Hlook. apply float_lookup.
Qed.

(** C2: for a feature matrix of [L] rows and [seq_len = s ≤ L], [length()]
    is [L - s + 1], a positive count. *)
Theorem len_counts_windows (X y : ndarray V) (s : Z)
    (ds : TimeseriesDataset.t) :
  s ≤ len X →
  TimeseriesDataset.__init__ float32 (Some X) (Some y) s = Ok ds →
  TimeseriesDataset.__len__ ds = Ok (len X - s + 1) ∧ 1 ≤ len X - s + 1.
Proof.
  intros Hs Hinit. apply init_arrays in Hinit as ->.
  unfold TimeseriesDataset.__len__. simpl. rewrite len_float.
  split; [f_equal|]; lia.
Qed.

(** C7, as the code has it: for [seq_len > L] the method [length()] raises
    nothing and returns [L - seq_len + 1], which is zero or negative; the
    built-in [len] accepts the zero and refuses the negative values with a
    [ValueError]. *)
Theorem len_beyond_rows (X y : ndarray V) (s : Z) (ds : TimeseriesDataset.t) :
  len X < s →
  TimeseriesDataset.__init__ float32 (Some X) (Some y) s = Ok ds →
  TimeseriesDataset.__len__ ds = Ok (len X - s + 1)
  ∧ len X - s + 1 ≤ 0
  ∧ ¬ fails (TimeseriesDataset.__len__ ds)
  ∧ TimeseriesDataset.builtin_len ds
    = if s =? len X + 1 then Ok 0 else Raise ValueError.
Proof.
  intros Hs Hinit. apply init_arrays in Hinit as ->.
  unfold TimeseriesDataset.builtin_len, TimeseriesDataset.__len__.
  simpl. rewrite len_float.
  repeat split.
  - f_equal. lia.
  - lia.
  - by intros [e He].
  - split_compare. f_equal. lia.
Qed.

(** C8, as the code has it: with [X] and [y] of [L] rows and a positive
    [seq_len = s], [item(i)] fails exactly when [i ≥ length()] or
    [i < -(L+s-1)]: with [IndexError] when the target index [i+s-1] fits
    in 64 bits, and with the overflow [ValueError] when it does not; the
    indices in between, the negative ones included, return a pair.  So
    [item(L-s)] is the last index of [0 .. length()-1] and [item(L-s+1)]
    raises [IndexError]. *)
Theorem getitem_out_of_range (X y : ndarray V) (s i n : Z)
    (ds : TimeseriesDataset.t) :
  length X = length y →
  0 < s →
  TimeseriesDataset.__init__ float32 (Some X) (Some y) s = Ok ds →
  TimeseriesDataset.__len__ ds = Ok n →
  (fails (TimeseriesDataset.__getitem__ ds i) ↔ n ≤ i ∨ i < - (len X + s - 1))
  ∧ (n ≤ i ∨ i < - (len X + s - 1) →
     TimeseriesDataset.__getitem__ ds i
     = if int64 (i + s - 1) then Raise IndexError else Raise ValueError)
  ∧ (s ≤ len X →
     n - 1 = len X - s
     ∧ ¬ fails (TimeseriesDataset.__getitem__ ds (len X - s))
     ∧ TimeseriesDataset.__getitem__ ds (len X - s + 1) = Raise IndexError).
Proof.
  intros Hxy Hs Hinit Hlen.
  pose proof (init_sizes _ _ _ _ Hinit) as [HmX Hmy].
  apply init_arrays in Hinit as ->.
  unfold TimeseriesDataset.__len__ in Hlen. simpl in Hlen.
  injection Hlen as <-. rewrite len_float in *.
  assert (len (float y) = len X) as Hy.
  { rewrite len_float. unfold len. lia. }
  assert (len (float y) ≤ int64_max) as Hmy' by lia.
  assert (∀ j, fails (TimeseriesDataset.__getitem__
                        (TimeseriesDataset.mk (float X) (float y) s) j)
               ↔ len X - (s - 1) ≤ j ∨ j < - (len X + s - 1)) as Hiff.
  { intros j. unfold TimeseriesDataset.__getitem__. simpl.
    split.
    - intros [e He].
      destruct (item (float y) (j + s - 1)) as [a|e'] eqn:Hitem; [done|].
      assert (fails (item (float y) (j + s - 1))) as Hf by by exists e'.
      apply item_fails_iff in Hf; [lia|done].
    - intros Hj. rewrite item_outside by lia.
      destruct (int64 (j + s - 1)); by eexists. }
  assert (∀ j, len X - (s - 1) ≤ j ∨ j < - (len X + s - 1) →
               TimeseriesDataset.__getitem__
                 (TimeseriesDataset.mk (float X) (float y) s) j
               = if int64 (j + s - 1) then Raise IndexError
                 else Raise ValueError) as Hraise.
  { intros j Hj. unfold TimeseriesDataset.__getitem__. simpl.
    rewrite item_outside by lia. by destruct (int64 (j + s - 1)). }
  split; [apply Hiff|]. split; [apply Hraise|].
  intros HsL. split; [lia|]. split.
  - rewrite Hiff. lia.
  - rewrite Hraise by lia.
    replace (len X - s + 1 + s - 1) with (len X) by lia.
    assert (int64 (len X) = true) as ->; [|done].
    pose proof (len_nonneg X). unfold int64. split_compare.
Qed.

End Windows.

Lemma getitem_returns_window_witness :
  ∃ window target,
    TimeseriesDataset.__getitem__
      (TimeseriesDataset.mk X0 y0 2) 1 = Ok (window, target)
    ∧ window = [[Num 2]; [Num 3]]
    ∧ target = [Num 30].
Proof.
  destruct (getitem_returns_window id X0 y0 2 1 2
              (TimeseriesDataset.mk X0 y0 2))
    as (window & target & Hget & Hwin & _ & _ & Htgt & _);
    [reflexivity | lia | reflexivity | reflexivity | lia |].
  exists window, target. split; [exact Hget|].
  split; [exact Hwin|]. simpl in Htgt. congruence.
Defined.

Lemma len_counts_windows_witness :
  TimeseriesDataset.__len__ (TimeseriesDataset.mk X0 y0 2) = Ok 2.
Proof.
  apply (len_counts_windows id X0 y0 2 (TimeseriesDataset.mk X0 y0 2));
    [vm_compute; congruence | reflexivity].
Defined.

(** C7 as stated fails: two rows and [seq_len = 3] give length 0, and no
    failure. *)
Lemma len_beyond_rows_counterexample :
  ∃ ds, TimeseriesDataset.__init__ id (Some [[Num 1]; [Num 2]])
          (Some [[Num 10]; [Num 20]]) 3 = Ok ds
        ∧ len [[Num 1]; [Num 2]] < 3
        ∧ TimeseriesDataset.__len__ ds = Ok 0
        ∧ ¬ fails (TimeseriesDataset.__len__ ds).
Proof.
  eexists. split; [reflexivity|]. split; [reflexivity|].
  split; [reflexivity|]. by intros [e He].
Qed.

Lemma len_beyond_rows_witness :
  TimeseriesDataset.__len__ (TimeseriesDataset.mk X0 y0 5) = Ok (-1)
  ∧ TimeseriesDataset.builtin_len (TimeseriesDataset.mk X0 y0 5)
    = Raise ValueError.
Proof.
  destruct (len_beyond_rows id X0 y0 5 (TimeseriesDataset.mk X0 y0 5))
    as (Hlen & _ & _ & Hbuiltin); [reflexivity | reflexivity |].
  split; [exact Hlen | exact Hbuiltin].
Defined.

(** C8 as stated fails: index -1 lies outside [0, length()), and
    [item(-1)] returns an empty window with the last target. *)
Lemma getitem_negative_counterexample :
  ∃ ds n, TimeseriesDataset.__init__ id (Some [[Num 1]; [Num 2]])
            (Some [[Num 10]; [Num 20]]) 1 = Ok ds
          ∧ TimeseriesDataset.__len__ ds = Ok n
          ∧ ¬ (0 ≤ -1 < n)
          ∧ TimeseriesDataset.__getitem__ ds (-1) = Ok ([], [Num 20])
          ∧ ¬ fails (TimeseriesDataset.__getitem__ ds (-1)).
Proof.
  eexists _, _. split; [reflexivity|]. split; [reflexivity|].
  split; [lia|]. split; [reflexivity|]. by intros [e He].
Qed.

Lemma getitem_out_of_range_witness :
  TimeseriesDataset.__getitem__ (TimeseriesDataset.mk X0 y0 2) 2
  = Raise IndexError.
Proof.
  destruct (getitem_out_of_range id X0 y0 2 2 2
              (TimeseriesDataset.mk X0 y0 2))
    as (_ & Hraise & _); [reflexivity | lia | reflexivity | reflexivity |].
  rewrite Hraise; [reflexivity | left; lia].
Defined.

(** ** Windows beyond the contract *)

Lemma slice_empty {A} (l : list A) (a : Z) : slice l a a = [].
Proof.
  unfold slice.
  set (a' := if a <? 0 then a + len l else a).
  set (a'' := if a' <? 0 then 0 else if len l <=? a' then len l else a').
  assert (a'' ≤ len l) as Hle.
  { pose proof (len_nonneg l). unfold a''. split_compare. }
  assert ((if a' <? a'' then a''
           else if len l <=? a' then len l else a') = a'') as ->.
  { unfold a''. pose proof (len_nonneg l). split_compare. }
  by rewrite Z.sub_diag.
Qed.

Section MoreWindows.

Context {V : Type} (float32 : V → V).

Local Abbreviation float := (TimeseriesDataset.float float32).

(** X1: Successive windows overlap: the window at [i+1] is the window at [i]
    without its first row, followed by row [i+seq_len], and its target is
    that of this new row. *)
Theorem windows_slide (X y : ndarray V) (s i n : Z)
    (ds : TimeseriesDataset.t) :
  length X = length y →
  0 < s →
  TimeseriesDataset.__init__ float32 (Some X) (Some y) s = Ok ds →
  TimeseriesDataset.__len__ ds = Ok n →
  0 ≤ i →
  i + 1 < n →
  ∃ w1 t1 w2 t2 r,
    TimeseriesDataset.__getitem__ ds i = Ok (w1, t1)
    ∧ TimeseriesDataset.__getitem__ ds (i + 1) = Ok (w2, t2)
    ∧ TimeseriesDataset.X ds !! Z.to_nat (i + s) = Some r
    ∧ w2 = drop 1 w1 ++ [r]
    ∧ TimeseriesDataset.y ds !! Z.to_nat (i + s) = Some t2.
Proof.
  intros Hxy Hs Hinit Hlen Hi0 Hi.
  pose proof (init_sizes _ _ _ _ _ Hinit) as [_ Hmax].
  apply init_arrays in Hinit as ->.
  unfold TimeseriesDataset.__len__ in Hlen. simpl in Hlen.
  injection Hlen as <-. rewrite len_float in Hi.
  assert (len (float y) = len X) as Hy.
  { rewrite len_float. unfold len. lia. }
  destruct (item_inside (float y) (i + s - 1)) as (t1 & _ & Ht1);
    [done|lia..|].
  destruct (item_inside (float y) (i + 1 + s - 1)) as (t2 & Hl2 & Ht2);
    [done|lia..|].
  destruct (lookup_lt_is_Some_2 (float X) (Z.to_nat (i + s))) as [r Hr].
  { pose proof (len_float float32 X). unfold len in *. lia. }
  exists (take (Z.to_nat s) (drop (Z.to_nat i) (float X))), t1,
    (take (Z.to_nat s) (drop (Z.to_nat (i + 1)) (float X))), t2, r.
  unfold TimeseriesDataset.__getitem__. simpl. rewrite Ht1, Ht2. simpl.
  rewrite !slice_inside by (rewrite ?len_float; lia).
  replace (i + s - i) with s by lia.
  replace (i + 1 + s - (i + 1)) with s by lia.
  split_and!; try done.
  - replace (Z.to_nat s) with (S (Z.to_nat (s - 1))) by lia.
    rewrite (take_S_r _ _ r).
    2:{ rewrite lookup_drop. rewrite <- Hr. f_equal. lia. }
    f_equal. rewrite <- take_drop_commute, drop_drop.
    by replace (Z.to_nat i + 1)%nat with (Z.to_nat (i + 1)) by lia.
  - rewrite <- Hl2. f_equal. lia.
Qed.

(** X2: The constructor does not compare the row counts of [X] and [y], and
    [length()] counts rows of [X] only: an index within [0, length())
    fails, with [IndexError], exactly when [y] has no row [i+seq_len-1]. *)
Theorem getitem_short_targets (X y : ndarray V) (s i n : Z)
    (ds : TimeseriesDataset.t) :
  0 < s →
  TimeseriesDataset.__init__ float32 (Some X) (Some y) s = Ok ds →
  TimeseriesDataset.__len__ ds = Ok n →
  0 ≤ i < n →
  (fails (TimeseriesDataset.__getitem__ ds i) ↔ len y ≤ i + s - 1)
  ∧ (len y ≤ i + s - 1 →
     TimeseriesDataset.__getitem__ ds i = Raise IndexError).
Proof.
  intros Hs Hinit Hlen Hi.
  pose proof (init_sizes _ _ _ _ _ Hinit) as [HmX Hmy].
  apply init_arrays in Hinit as ->.
  unfold TimeseriesDataset.__len__ in Hlen. simpl in Hlen.
  injection Hlen as <-. rewrite len_float in Hi, HmX.
  unfold TimeseriesDataset.__getitem__. simpl.
  assert (len y ≤ i + s - 1 → item (float y) (i + s - 1) = Raise IndexError)
    as Hout.
  { intros. apply item_outside_int64; [|rewrite len_float; lia].
    unfold int64. split_compare. }
  split; [|by intros ->%Hout].
  split.
  - intros [e He].
    destruct (item (float y) (i + s - 1)) as [a|e'] eqn:Hitem; [done|].
    assert (fails (item (float y) (i + s - 1))) as Hf by by exists e'.
    apply item_fails_iff in Hf; [|done]. rewrite len_float in Hf. lia.
  - intros ->%Hout. by exists IndexError.
Qed.

(** X3: [seq_len = 0] is accepted: [length()] is one more than the row count,
    every item that is returned has an empty window, item 0 takes its
    target from the last row of [y], and item [i > 0] from row [i-1]. *)
Theorem zero_seq_len (X y : ndarray V) (ds : TimeseriesDataset.t) :
  length X = length y →
  TimeseriesDataset.__init__ float32 (Some X) (Some y) 0 = Ok ds →
  TimeseriesDataset.__len__ ds = Ok (len X + 1)
  ∧ (∀ i w t, TimeseriesDataset.__getitem__ ds i = Ok (w, t) → w = [])
  ∧ (∀ t, last (float y) = Some t →
       TimeseriesDataset.__getitem__ ds 0 = Ok ([], t))
  ∧ (∀ i, 0 < i ≤ len X →
       ∃ t, float y !! Z.to_nat (i - 1) = Some t
            ∧ TimeseriesDataset.__getitem__ ds i = Ok ([], t)).
Proof.
  intros Hxy Hinit.
  pose proof (init_sizes _ _ _ _ _ Hinit) as [_ Hmax].
  apply init_arrays in Hinit as ->.
  assert (len (float y) = len X) as Hy.
  { rewrite len_float. unfold len. lia. }
  unfold TimeseriesDataset.__len__, TimeseriesDataset.__getitem__. simpl.
  split_and!.
  - f_equal. rewrite len_float. lia.
  - intros i w t. rewrite Z.add_0_r, slice_empty.
    destruct (item (float y) (i - 1)); simpl; [by intros [= <- _]|done].
  - intros t Ht. rewrite slice_empty.
    assert (float y ≠ []) as Hne by by intros Hnil; rewrite Hnil in Ht.
    assert (0 < len (float y)) as Hpos.
    { unfold len. destruct (float y); [done|simpl; lia]. }
    destruct (item_wraps (float y) (0 + 0 - 1)) as (t' & Hl & ->);
      [done|lia..|].
    simpl. rewrite last_lookup in Ht.
    replace (Z.to_nat (0 + 0 - 1 + len (float y)))
      with (pred (length (float y))) in Hl by (unfold len; lia).
    rewrite Ht in Hl. by injection Hl as <-.
  - intros i Hi. rewrite Z.add_0_r, slice_empty.
    destruct (item_inside (float y) (i - 1)) as (t & Hl & ->);
      [done|lia..|].
    by exists t.
Qed.

End MoreWindows.

Lemma windows_slide_witness :
  ∃ w2 t2, TimeseriesDataset.__getitem__ (TimeseriesDataset.mk X0 y0 2) 1
           = Ok (w2, t2)
           ∧ w2 = [[Num 2]; [Num 3]].
Proof.
  destruct (windows_slide id X0 y0 2 0 2 (TimeseriesDataset.mk X0 y0 2))
    as (w1 & t1 & w2 & t2 & r & H1 & H2 & Hr & Hw & _);
    [reflexivity | lia | reflexivity | reflexivity | lia | lia |].
  exists w2, t2. split; [exact H2|].
  vm_compute in H1. injection H1 as <- <-.
  vm_compute in Hr. injection Hr as <-. exact Hw.
Defined.

Lemma getitem_short_targets_witness :
  TimeseriesDataset.__getitem__
    (TimeseriesDataset.mk X0 [[Num 10]; [Num 20]] 1) 2
  = Raise IndexError.
Proof.
  destruct (getitem_short_targets id X0 [[Num 10]; [Num 20]] 1 2 3
              (TimeseriesDataset.mk X0 [[Num 10]; [Num 20]] 1))
    as (_ & Hraise); [lia | reflexivity | reflexivity | lia |].
  apply Hraise. by vm_compute.
Defined.

Lemma zero_seq_len_witness :
  TimeseriesDataset.__getitem__ (TimeseriesDataset.mk X0 y0 0) 0
  = Ok ([], [Num 30]).
Proof.
  destruct (zero_seq_len id X0 y0 (TimeseriesDataset.mk X0 y0 0))
    as (_ & _ & Hlast & _); [reflexivity | reflexivity |].
  apply Hlast. reflexivity.
Defined.

(** ** The target series *)

Lemma ffill_from_gap {V} (c : cell V) (s : list (cell V)) :
  Forall (λ x, isna x = false) s →
  pd.ffill_from c (s ++ [NaN]) = s ++ [default c (last s)].
Proof.
  intros Hs. revert c. induction Hs as [|x s Hx Hs IH]; intros c; [done|].
  simpl. rewrite Hx, IH. rewrite last_cons. by destruct (last s).
Qed.

Lemma shift_back_one {V} (s : list (cell V)) :
  s ≠ [] → pd.shift s (-1) = drop 1 s ++ [NaN].
Proof. destruct s; [done|]. intros _. reflexivity. Qed.

Lemma target_of_complete {V} (s : list (cell V)) :
  Forall (λ x, isna x = false) s →
  s ≠ [] →
  pd.ffill (pd.shift s (-1)) = drop 1 s ++ [default NaN (last (drop 1 s))].
Proof.
  intros Hs Hne. rewrite shift_back_one by done.
  apply ffill_from_gap. by apply Forall_drop.
Qed.

Lemma index_of_lt (name : string) (names : list string) (k : nat) :
  pd.index_of name names = Some k → (k < length names)%nat.
Proof.
  revert k. induction names as [|c names IH]; intros k; simpl; [done|].
  destruct (String.eqb c name).
  - intros [= <-]. lia.
  - destruct (pd.index_of name names) as [k'|]; simpl; [|done].
    intros [= <-]. specialize (IH k' eq_refl). lia.
Qed.

Lemma complete_cell {V} (width k : nat) (r : row V) :
  pd.complete width r = true → (k < width)%nat → isna (pd.cell_at r k) = false.
Proof.
  unfold pd.complete. rewrite forallb_forall. intros Hall Hk.
  apply negb_true_iff, Hall, in_seq. lia.
Qed.

(** After [dropna] a column has no missing value. *)
Lemma dropna_column_complete {V} (df : pd.frame V) (name : string)
    (s : list (cell V)) :
  pd.getitem_column (pd.dropna df) name = Ok s →
  Forall (λ x, isna x = false) s.
Proof.
  unfold pd.getitem_column. simpl.
  destruct (pd.index_of name (pd.columns df)) as [k|] eqn:Hk; [|done].
  intros [= <-]. apply index_of_lt in Hk.
  apply Forall_fmap, Forall_forall. intros r Hr. simpl.
  apply list_elem_of_In, filter_In in Hr as [_ Hr].
  by apply complete_cell with (length (pd.columns df)).
Qed.

Lemma getitem_column_length {V} (df : pd.frame V) (name : string)
    (s : list (cell V)) :
  pd.getitem_column df name = Ok s → length s = length (pd.rows df).
Proof.
  unfold pd.getitem_column.
  destruct (pd.index_of name (pd.columns df)); [|done].
  intros [= <-]. apply length_map.
Qed.

Lemma length_ffill_from {V} (c : cell V) (s : list (cell V)) :
  length (pd.ffill_from c s) = length s.
Proof.
  revert c. induction s as [|x s IH]; intros c; simpl; [done|].
  by rewrite IH.
Qed.

Lemma length_shift {V} (s : list (cell V)) (p : Z) :
  length (pd.shift s p) = length s.
Proof.
  unfold pd.shift. destruct (p <? 0);
    rewrite length_app, length_replicate, ?length_drop, ?length_take; lia.
Qed.

Lemma length_target {V} (s : list (cell V)) (p : Z) :
  length (pd.ffill (pd.shift s p)) = length s.
Proof. unfold pd.ffill. by rewrite length_ffill_from, length_shift. Qed.

(** ** The splitter *)

Lemma ceil_tenth (N : Z) : Qceiling (0.10 * inject_Z N) = (N + 9) `div` 10.
Proof.
  unfold Qceiling, Qfloor, Qmult, Qopp, inject_Z. cbn [Qnum Qden].
  change (Z.pos (100 * 1)) with 100.
  Z.div_mod_to_equations. lia.
Qed.

Lemma ceil_twentieth (N : Z) : Qceiling (0.05 * inject_Z N) = (N + 19) `div` 20.
Proof.
  unfold Qceiling, Qfloor, Qmult, Qopp, inject_Z. cbn [Qnum Qden].
  change (Z.pos (100 * 1)) with 100.
  Z.div_mod_to_equations. lia.
Qed.

Lemma len_app {A} (l k : list A) : len (l ++ k) = len l + len k.
Proof. unfold len. rewrite length_app. lia. Qed.

Lemma len_take {A} (l : list A) (n : Z) :
  0 ≤ n ≤ len l → len (take (Z.to_nat n) l) = n.
Proof. unfold len. intros. rewrite length_take. lia. Qed.

Lemma len_drop {A} (l : list A) (n : Z) :
  0 ≤ n ≤ len l → len (drop (Z.to_nat n) l) = len l - n.
Proof. unfold len. intros. rewrite length_drop. lia. Qed.

(** With [n_test] of the [N] rows for the test part, the splitter returns
    the first [N - n_test] rows and the rows after them, and refuses arrays
    of different lengths and an empty first part. *)
Lemma train_test_split_parts {A B} (X : list A) (y : list B) (q : Q) :
  Qle_bool q 0 = false →
  Qle_bool 1 q = false →
  let n_train := len X - Qceiling (q * inject_Z (len X)) in
  0 ≤ n_train ≤ len X →
  sklearn.train_test_split X y q
  = if negb (len X =? len y) || (n_train =? 0) then Raise ValueError
    else Ok (take (Z.to_nat n_train) X, drop (Z.to_nat n_train) X,
             take (Z.to_nat n_train) y, drop (Z.to_nat n_train) y).
Proof.
  intros Hq0 Hq1 n_train Hn.
  unfold sklearn.train_test_split, sklearn.validate_shuffle_split.
  rewrite Hq0, Hq1. simpl. fold n_train.
  destruct (Z.eqb_spec (len X) (len y)) as [Hlen|]; simpl; [|done].
  destruct (Z.eqb_spec n_train 0); simpl; [done|].
  replace (n_train + Qceiling (q * inject_Z (len X))) with (len X)
    by (unfold n_train; lia).
  rewrite slice_prefix, slice_suffix by lia.
  rewrite Hlen. rewrite slice_prefix, slice_suffix by lia. done.
Qed.

Lemma train_test_split_inv {A B} (X : list A) (y : list B) (q : Q)
    (a b : list A) (c d : list B) :
  Qle_bool q 0 = false →
  Qle_bool 1 q = false →
  let n_test := Qceiling (q * inject_Z (len X)) in
  0 ≤ n_test ≤ len X →
  sklearn.train_test_split X y q = Ok (a, b, c, d) →
  X = a ++ b ∧ y = c ++ d
  ∧ len b = n_test ∧ len d = n_test
  ∧ len a = len X - n_test ∧ len c = len X - n_test
  ∧ 1 ≤ len a.
Proof.
  intros Hq0 Hq1 n_test Hn.
  rewrite train_test_split_parts by (done || lia). fold n_test.
  destruct (Z.eqb_spec (len X) (len y)) as [Hlen|]; simpl; [|done].
  destruct (Z.eqb_spec (len X - n_test) 0); simpl; [done|].
  intros [= <- <- <- <-].
  rewrite !take_drop, !len_take, !len_drop by lia.
  split_and!; (done || lia).
Qed.

Lemma train_test_split_ok {A B} (X : list A) (y : list B) (q : Q) :
  Qle_bool q 0 = false →
  Qle_bool 1 q = false →
  let n_train := len X - Qceiling (q * inject_Z (len X)) in
  1 ≤ n_train ≤ len X →
  len X = len y →
  sklearn.train_test_split X y q
  = Ok (take (Z.to_nat n_train) X, drop (Z.to_nat n_train) X,
        take (Z.to_nat n_train) y, drop (Z.to_nat n_train) y).
Proof.
  intros Hq0 Hq1 n_train Hn Hlen.
  rewrite train_test_split_parts by (done || lia). fold n_train.
  rewrite <- Hlen, Z.eqb_refl. simpl.
  by destruct (Z.eqb_spec n_train 0); [lia|].
Qed.

(** The two calls of the splitter in [setup]: on at least three rows both
    return, and what they return is the table cut in three. *)
Lemma chronological_split {A B} (X : list A) (y : list B) :
  len X = len y →
  3 ≤ len X →
  ∃ X_train X_val X_test y_train y_val y_test,
    sklearn.train_test_split X y 0.10
    = Ok (X_train ++ X_val, X_test, y_train ++ y_val, y_test)
    ∧ sklearn.train_test_split (X_train ++ X_val) (y_train ++ y_val) 0.05
      = Ok (X_train, X_val, y_train, y_val)
    ∧ X = X_train ++ X_val ++ X_test
    ∧ y = y_train ++ y_val ++ y_test
    ∧ len X_test = Qceiling (0.10 * inject_Z (len X))
    ∧ len X_val = Qceiling (0.05 * inject_Z (len X - len X_test))
    ∧ len X_train = len X - len X_test - len X_val
    ∧ 1 ≤ len X_train
    ∧ len y_train = len X_train
    ∧ len y_val = len X_val
    ∧ len y_test = len X_test.
Proof.
  intros Hlen HN.
  pose proof (ceil_tenth (len X)) as Ht.
  assert (2 ≤ len X - Qceiling (0.10 * inject_Z (len X)) ≤ len X) as Hcv.
  { rewrite Ht. Z.div_mod_to_equations. lia. }
  pose proof (train_test_split_ok X y 0.10 eq_refl eq_refl) as H1.
  simpl in H1. specialize (H1 ltac:(lia) Hlen).
  set (n_cv := len X - Qceiling (0.10 * inject_Z (len X))) in *.
  set (X_cv := take (Z.to_nat n_cv) X) in *.
  set (y_cv := take (Z.to_nat n_cv) y) in *.
  assert (len X_cv = n_cv) as HXcv by (apply len_take; lia).
  assert (len y_cv = n_cv) as Hycv by (apply len_take; lia).
  pose proof (ceil_twentieth (len X_cv)) as Hv.
  assert (1 ≤ len X_cv - Qceiling (0.05 * inject_Z (len X_cv)) ≤ len X_cv)
    as Htr.
  { rewrite Hv, HXcv. Z.div_mod_to_equations. lia. }
  pose proof (train_test_split_ok X_cv y_cv 0.05 eq_refl eq_refl) as H2.
  simpl in H2. specialize (H2 Htr ltac:(lia)).
  set (n_train := len X_cv - Qceiling (0.05 * inject_Z (len X_cv))) in *.
  exists (take (Z.to_nat n_train) X_cv), (drop (Z.to_nat n_train) X_cv),
    (drop (Z.to_nat n_cv) X), (take (Z.to_nat n_train) y_cv),
    (drop (Z.to_nat n_train) y_cv), (drop (Z.to_nat n_cv) y).
  rewrite !take_drop. split; [done|]. split; [done|].
  rewrite !(assoc_L (++)), !take_drop. unfold X_cv, y_cv. rewrite !take_drop.
  fold X_cv y_cv.
  rewrite !len_take, !len_drop by lia.
  split_and!; try done; try lia.
  replace (len X - (len X - n_cv)) with (len X_cv) by lia.
  unfold n_train. lia.
Qed.

Lemma chronological_split_inv {A B} (X X_cv X_train X_val X_test : list A)
    (y y_cv y_train y_val y_test : list B) :
  sklearn.train_test_split X y 0.10 = Ok (X_cv, X_test, y_cv, y_test) →
  sklearn.train_test_split X_cv y_cv 0.05 = Ok (X_train, X_val, y_train, y_val) →
  X = X_train ++ X_val ++ X_test
  ∧ y = y_train ++ y_val ++ y_test
  ∧ len X_test = Qceiling (0.10 * inject_Z (len X))
  ∧ len X_val = Qceiling (0.05 * inject_Z (len X - len X_test))
  ∧ len X_train = len X - len X_test - len X_val
  ∧ 1 ≤ len X_train
  ∧ len y_train = len X_train
  ∧ len y_val = len X_val
  ∧ len y_test = len X_test.
Proof.
  intros H1 H2.
  apply train_test_split_inv in H1; [|done|done|].
  2:{ rewrite ceil_tenth. pose proof (len_nonneg X).
      Z.div_mod_to_equations. lia. }
  destruct H1 as (HX & Hy & Hb & Hd & Ha & Hc & _).
  apply train_test_split_inv in H2; [|done|done|].
  2:{ rewrite ceil_twentieth. pose proof (len_nonneg X_cv).
      Z.div_mod_to_equations. lia. }
  destruct H2 as (HX' & Hy' & Hb' & Hd' & Ha' & Hc' & Hpos).
  subst X y X_cv y_cv. rewrite <- !(assoc_L (++)).
  rewrite !len_app, ?ceil_tenth, ?ceil_twentieth in *.
  split_and!; try done;
    replace (len X_train + (len X_val + len X_test) - len X_test)
      with (len X_train + len X_val) by lia;
    replace (len X_train + (len X_val + len X_test))
      with (len X_train + len X_val + len X_test) by lia;
    lia.
Qed.

(** ** The splitter on few rows *)



Lemma split_returns_enough {A B} (X : list A) (y : list B) (e : exn) :
  len X = len y → 3 ≤ len X → ¬ split_raises X y e.
Proof.
  intros Hlen HN Hraise.
  destruct (chronological_split X y Hlen HN)
    as (? & ? & ? & ? & ? & ? & H1 & H2 & _).
  destruct Hraise as [H1'|(? & ? & ? & ? & H1' & H2')]; congruence.
Qed.

Lemma split_needs_three {A B} (X X_cv X_train X_val X_test : list A)
    (y y_cv y_train y_val y_test : list B) :
  sklearn.train_test_split X y 0.10 = Ok (X_cv, X_test, y_cv, y_test) →
  sklearn.train_test_split X_cv y_cv 0.05 = Ok (X_train, X_val, y_train, y_val) →
  3 ≤ len X.
Proof.
  intros H1 H2.
  destruct (chronological_split_inv _ _ _ _ _ _ _ _ _ _ H1 H2)
    as (HX & _ & Ht & Hv & Htr & Hpos & _).
  rewrite ceil_tenth in Ht. rewrite ceil_twentieth in Hv.
  pose proof (len_nonneg X_val). pose proof (len_nonneg X_test).
  Z.div_mod_to_equations. lia.
Qed.

(** ** More on the target series *)

Lemma target_lookup {V} (s : list (cell V)) (j : nat) :
  Forall (λ x, isna x = false) s →
  (j + 1 < length s)%nat →
  pd.ffill (pd.shift s (-1)) !! j = s !! (j + 1)%nat.
Proof.
  intros Hs Hj. destruct s as [|d s]; [simpl in Hj; lia|].
  rewrite target_of_complete by done. simpl in *. rewrite drop_0.
  rewrite lookup_app_l by lia. by rewrite Nat.add_1_r.
Qed.

Lemma target_last {V} (s : list (cell V)) (n : nat) :
  Forall (λ x, isna x = false) s →
  length s = S (S n) →
  pd.ffill (pd.shift s (-1)) !! S n = s !! S n.
Proof.
  intros Hs Hn. destruct s as [|d s]; [done|].
  rewrite target_of_complete by done. simpl in *. rewrite drop_0.
  injection Hn as Hn.
  rewrite lookup_app_r by lia. replace (S n - length s)%nat with O by lia.
  simpl. rewrite last_lookup, Hn. simpl.
  destruct (lookup_lt_is_Some_2 s n) as [x Hx]; [lia|]. by rewrite Hx.
Qed.

Lemma target_complete {V} (s : list (cell V)) :
  Forall (λ x, isna x = false) s →
  (2 ≤ length s)%nat →
  Forall (λ x, isna x = false) (pd.ffill (pd.shift s (-1))).
Proof.
  intros Hs Hn. destruct s as [|d [|d' s]]; [simpl in Hn; lia..|].
  rewrite target_of_complete by done. simpl drop.
  apply Forall_cons in Hs as [_ Hs].
  apply Forall_app. split; [done|].
  destruct (last (d' :: s)) as [x|] eqn:Hlast.
  - apply last_Some_elem_of in Hlast. simpl. apply Forall_singleton.
    by eapply Forall_forall in Hs.
  - by apply last_None in Hlast.
Qed.

Lemma filter_sublist {A} (f : A → bool) (l : list A) :
  List.filter f l `sublist_of` l.
Proof.
  induction l as [|x l IH]; simpl; [done|].
  destruct (f x); by constructor.
Qed.

Lemma split_sizes_positive (N t v : Z) :
  3 ≤ N →
  t = Qceiling (0.10 * inject_Z N) →
  v = Qceiling (0.05 * inject_Z (N - t)) →
  1 ≤ t ∧ 1 ≤ v ∧ 1 ≤ N - t - v.
Proof.
  intros HN -> ->. rewrite ceil_twentieth, ceil_tenth.
  Z.div_mod_to_equations. lia.
Qed.

(** ** Every way a call of [setup] ends *)

Lemma assigned_fit :
  assigned (Some "fit") = ["X_train"; "y_train"; "X_val"; "y_val"].
Proof. reflexivity. Qed.

Lemma assigned_test : assigned (Some "test") = ["X_test"; "y_test"].
Proof. reflexivity. Qed.

Lemma assigned_None :
  assigned None = ["X_train"; "y_train"; "X_val"; "y_val"; "X_test"; "y_test"].
Proof. reflexivity. Qed.


Lemma stage_cases (stage : option string) :
  stage = Some "fit" ∨ stage = Some "test" ∨ stage = None
  ∨ (stage ≠ Some "fit" ∧ stage ≠ Some "test" ∧ stage ≠ None).
Proof.
  destruct (decide (stage = Some "fit")); [by left|].
  destruct (decide (stage = Some "test")); [by right; left|].
  destruct (decide (stage = None)); [by right; right; left|].
  by right; right; right.
Qed.

(** Runs the monadic operations of a method on the world at hand. *)
Ltac run :=
  unfold PowerConsumptionDataModule.and_,
    PowerConsumptionDataModule.attr_is_not_None,
    PowerConsumptionDataModule.getattr, PowerConsumptionDataModule.setattr,
    PowerConsumptionDataModule.setattr_columns,
    PowerConsumptionDataModule.print, PowerConsumptionDataModule.lift,
    PowerConsumptionDataModule.get_self;
  unfold mbind, mret, PowerConsumptionDataModule.M_bind,
    PowerConsumptionDataModule.M_ret; simpl.

Ltac not_cached :=
  let Hc := fresh "Hc" in
  unfold cached, holds; intros Hc;
  destruct Hc as [[? [? ?]]|[[? [? ?]]|[? [[? ?] [? ?]]]]]; congruence.

(** The stage is, or is not, one that stores. *)
Ltac stage_is :=
  unfold fit_stage, test_stage;
  first [ by left | by right
        | let H := fresh in intros H; destruct H; congruence ].

(** The world at hand is the one described by [stored_as]. *)
Ltac stored :=
  unfold stored_as, holds, fit_arrays, test_arrays; simpl;
  split_and!; try done;
  first
    [ solve
        [ let H := fresh in
          intros ? ? H; set_unfold in H;
          repeat match goal with
            | H : _ ∨ _ |- _ => destruct H
            | H : (_, _) = (_, _) |- _ => injection H as -> ->
            | H : False |- _ => destruct H
            end; simplify_map_eq; done ]
    | solve
        [ let H := fresh in
          intros ? H; set_unfold in H;
          rewrite ?lookup_insert_ne by (intros <-; apply H; naive_solver);
          done ] ].

Ltac fit_went :=
  first [ left; split;
          [stage_is | do 2 eexists; split_and!; [done|done|reflexivity]]
        | right; split; [stage_is | reflexivity] ].

Ltac test_went :=
  first [ left; split; [stage_is | eexists; split; [done|reflexivity]]
        | right; split; [stage_is | reflexivity] ].

(** Names the way the scaler part of [setup] ended. *)
Ltac scaled_how :=
  first [ eapply scaled_fit_raised; [done|stored]
        | eapply scaled_train_raised; [done|stage_is|done|stored]
        | eapply scaled_val_raised; [done|stage_is|done|done|stored]
        | eapply scaled_test_raised; [done|fit_went|stage_is|done|stored]
        | eapply scaled_stored; [done|fit_went|test_went|stored] ].

(** Follows [setup] past its guards, naming the outcome at each exit. *)
Ltac pipeline_outcome source :=
  let e := fresh "e" in
  destruct source as [?df|e] eqn:?Hsrc; simpl;
    [|intros [= <- <-]; by apply outcome_source; [not_cached|]];
  match goal with
  | |- context [pd.getitem_column ?X "Deaths"] =>
      destruct (pd.getitem_column X "Deaths") as [?deaths|e] eqn:?Hcol; simpl;
        [|intros [= <- <-]; by eapply outcome_column; [not_cached|..]]
  end;
  match goal with
  | |- context [sklearn.train_test_split ?X ?y 0.10] =>
      destruct (sklearn.train_test_split X y 0.10)
        as [[[[?X_cv ?X_test] ?y_cv] ?y_test]|e] eqn:?Hcv; simpl;
        [|intros [= <- <-];
          eapply outcome_split; [not_cached|done|done|by left]]
  end;
  match goal with
  | |- context [sklearn.train_test_split ?X ?y 0.05] =>
      destruct (sklearn.train_test_split X y 0.05)
        as [[[[?X_train ?X_val] ?y_train] ?y_val]|e] eqn:?Hval; simpl;
        [|intros [= <- <-];
          eapply outcome_split; [not_cached|done|done|];
          right; by do 4 eexists]
  end;
  match goal with
  | |- context [match ?f ?X with _ => _ end] =>
      destruct (f X) as [?p|?e] eqn:?Hfit; simpl
  end;
  repeat match goal with
    | |- context [match ?t ?p ?X with _ => _ end] =>
        destruct (t p X) as [?a|?e] eqn:?Htr; simpl
    end;
  intros [= <- <-];
  (eapply outcome_scaled; [not_cached|done|done|done|done|]; scaled_how).

Section Outcome.

Import PowerConsumptionDataModule.

Context {V : Type} (float32 : V → V).
Context {scaler : Type}.
Context (fit : ndarray V → result scaler).
Context (transform : scaler → ndarray V → result (ndarray V)).

Local Abbreviation world := (@PowerConsumptionDataModule.world V scaler).
Local Abbreviation setup := (PowerConsumptionDataModule.setup fit transform).

Lemma setup_outcome source stage (w w' : world) r :
  setup source stage w = (r, w') →
  outcome fit transform source stage w r w'.
Proof.
  unfold PowerConsumptionDataModule.setup.
  destruct (stage_cases stage) as [->|[->|[->|(Hf & Ht & Hn)]]].
  - run. destruct (arrays (self w) !! "X_train") as [[a|]|] eqn:E; simpl.
    + intros [= <- <-]. apply outcome_cached. left. unfold holds. eauto.
    + pipeline_outcome source.
    + intros [= <- <-]. eapply outcome_no_attribute; [by left|done].
  - run. destruct (arrays (self w) !! "X_test") as [[a|]|] eqn:E; simpl.
    + intros [= <- <-]. apply outcome_cached. right. left.
      unfold holds. eauto.
    + pipeline_outcome source.
    + intros [= <- <-]. eapply outcome_no_attribute; [by right|done].
  - run. destruct (arrays (self w) !! "X_train") as [[a|]|] eqn:E; simpl.
    + destruct (arrays (self w) !! "X_test") as [[b|]|] eqn:E'; simpl.
      * intros [= <- <-]. apply outcome_cached. right. right.
        unfold holds. eauto.
      * pipeline_outcome source.
      * intros [= <- <-]. eapply outcome_no_attribute; [by right|done].
    + pipeline_outcome source.
    + intros [= <- <-]. eapply outcome_no_attribute; [by left|done].
  - run. rewrite !bool_decide_eq_false_2 by done. simpl.
    pipeline_outcome source.
Qed.

End Outcome.

(** ** What a call of [setup] stores *)

Section Runs.

Import PowerConsumptionDataModule.

Context {V : Type} (float32 : V → V).
Context {scaler : Type}.
Context (fit : ndarray V → result scaler).
Context (transform : scaler → ndarray V → result (ndarray V)).

Local Abbreviation world := (@PowerConsumptionDataModule.world V scaler).
Local Abbreviation setup := (PowerConsumptionDataModule.setup fit transform).

Lemma setup_cached source stage (w : world) :
  cached stage w → setup source stage w = (Ok (), w).
Proof.
  unfold cached, holds.
  intros [[-> [a Ha]]|[[-> [a Ha]]|[-> [[a Ha] [b Hb]]]]];
    unfold PowerConsumptionDataModule.setup; run.
  - rewrite Ha. done.
  - rewrite Ha. done.
  - rewrite Ha. simpl. rewrite Hb. done.
Qed.

Lemma fit_names_assigned (stage : option string) (name : string) :
  fit_stage stage →
  name ∈ ["X_train"; "y_train"; "X_val"; "y_val"] →
  name ∈ assigned stage.
Proof.
  intros Hs Hname. unfold assigned. rewrite decide_True by done.
  apply elem_of_app. by left.
Qed.

Lemma test_names_assigned (stage : option string) (name : string) :
  test_stage stage →
  name ∈ ["X_test"; "y_test"] →
  name ∈ assigned stage.
Proof.
  intros Hs Hname. unfold assigned.
  rewrite (decide_True (P := test_stage stage)) by done.
  apply elem_of_app. by right.
Qed.

Lemma fit_done_names (stage : option string) (p : scaler)
    (X_train X_val : ndarray V) (y_train y_val : list (cell V))
    (kept : list (string * ndarray V)) (name : string) :
  fit_done transform stage p X_train X_val y_train y_val kept →
  name ∈ kept.*1 →
  fit_stage stage ∧ name ∈ ["X_train"; "y_train"; "X_val"; "y_val"].
Proof.
  intros [(Hs & a & b & _ & _ & ->)|(_ & ->)] Hname; [|by set_unfold].
  split; [done|]. exact Hname.
Qed.

Lemma test_done_names (stage : option string) (p : scaler)
    (X_test : ndarray V) (y_test : list (cell V))
    (kept : list (string * ndarray V)) (name : string) :
  test_done transform stage p X_test y_test kept →
  name ∈ kept.*1 →
  test_stage stage ∧ name ∈ ["X_test"; "y_test"].
Proof.
  intros [(Hs & c & _ & ->)|(_ & ->)] Hname; [|by set_unfold].
  split; [done|]. exact Hname.
Qed.

(** However the scaler part ends, what it stored is described by
    [stored_as] for some arrays of the stage; when it raised, the test
    arrays are not among them. *)
Lemma scaled_kept stage (X : pd.frame V) X_train X_val X_test
    y_train y_val y_test (w w' : world) r :
  scaled fit transform stage X X_train X_val X_test y_train y_val y_test
    w r w' →
  ∃ kept,
    stored_as kept X w w'
    ∧ (∀ name, name ∈ kept.*1 → name ∈ assigned stage)
    ∧ (∀ e, r = Raise e →
         ∀ name, name ∈ kept.*1 →
                 name ∈ ["X_train"; "y_train"; "X_val"; "y_val"]).
Proof.
  intros Hs.
  inversion Hs as [e w1 Hfit Hst|p e w1 Hfit Hstage Htr Hst
                   |p a e w1 Hfit Hstage Htr Hv Hst
                   |p kept e w1 Hfit Hdone Hstage Hte Hst
                   |p kept kept' w1 Hfit Hdone Hdone' Hst]; subst.
  - exists []. split_and!; [done|by set_unfold..].
  - exists []. split_and!; [done|by set_unfold..].
  - eexists. split_and!; [done|..].
    + intros name Hname. apply fit_names_assigned; [done|].
      simpl in Hname. set_unfold. tauto.
    + intros _ _ name Hname. simpl in Hname. set_unfold. tauto.
  - exists kept. split_and!; [done|..].
    + intros name Hname.
      edestruct fit_done_names as [? ?]; [exact Hdone|exact Hname|].
      by apply fit_names_assigned.
    + intros _ _ name Hname.
      edestruct fit_done_names as [? ?]; [exact Hdone|exact Hname|]. done.
  - exists (kept ++ kept'). split_and!; [done| |done].
    intros name Hname. rewrite fmap_app in Hname.
    apply elem_of_app in Hname as [Hname|Hname].
    + edestruct fit_done_names as [? ?]; [exact Hdone|exact Hname|].
      by apply fit_names_assigned.
    + edestruct test_done_names as [? ?]; [exact Hdone'|exact Hname|].
      by apply test_names_assigned.
Qed.

(** What a call of [setup] does not assign for its stage stays, however
    the call ends. *)
Lemma setup_keeps source stage (w : world) (name : string) :
  name ∉ assigned stage →
  arrays (self (setup source stage w).2) !! name = arrays (self w) !! name.
Proof.
  intros Hname.
  destruct (setup source stage w) as [r w'] eqn:Hrun. simpl.
  apply setup_outcome in Hrun.
  inversion Hrun as [| | | |
                     |? ? ? ? ? ? ? ? ? ? ? ? _ _ _ _ _ Hs]; subst;
    try done.
  apply scaled_kept in Hs as (kept & (_ & Hkeep & _) & Hin & _).
  apply Hkeep. intros Hk. by apply Hname, Hin.
Qed.

(** A call of [setup] that raises has not assigned the test arrays. *)
Lemma setup_raised_keeps_test source stage (w : world) (e : exn)
    (name : string) :
  (setup source stage w).1 = Raise e →
  name = "X_test" ∨ name = "y_test" →
  arrays (self (setup source stage w).2) !! name = arrays (self w) !! name.
Proof.
  destruct (setup source stage w) as [r w'] eqn:Hrun. simpl.
  intros -> Hname. apply setup_outcome in Hrun.
  inversion Hrun as [| | | |
                     |? ? ? ? ? ? ? ? ? ? ? ? _ _ _ _ _ Hs]; subst;
    try done.
  apply scaled_kept in Hs as (kept & (_ & Hkeep & _) & _ & Hin).
  apply Hkeep. intros Hk. specialize (Hin e eq_refl name Hk).
  set_unfold. destruct Hname as [-> | ->]; intuition congruence.
Qed.

Lemma setup_configuration source stage (w : world) :
  seq_len (self (setup source stage w).2) = seq_len (self w)
  ∧ batch_size (self (setup source stage w).2) = batch_size (self w)
  ∧ num_workers (self (setup source stage w).2) = num_workers (self w)
  ∧ preprocessing (self (setup source stage w).2) = preprocessing (self w).
Proof.
  destruct (setup source stage w) as [r w'] eqn:Hrun. simpl.
  apply setup_outcome in Hrun.
  inversion Hrun as [| | | |
                     |? ? ? ? ? ? ? ? ? ? ? ? _ _ _ _ _ Hs]; subst;
    try done.
  apply scaled_kept in Hs as (kept & Hst & _).
  by destruct Hst as (_ & _ & ? & ? & ? & ? & _).
Qed.

Lemma column_inv (df : pd.frame V) (deaths : list (cell V)) :
  pd.getitem_column (pd.dropna df) "Deaths" = Ok deaths →
  ∃ k, pd.index_of "Deaths" (pd.columns df) = Some k
       ∧ deaths = map (λ r, pd.cell_at r k) (pd.rows (pd.dropna df)).
Proof.
  unfold pd.getitem_column. simpl.
  destruct (pd.index_of "Deaths" (pd.columns df)) as [k|]; [|done].
  intros [= <-]. by exists k.
Qed.

Lemma column_of_index (df : pd.frame V) (k : nat) :
  pd.index_of "Deaths" (pd.columns df) = Some k →
  pd.getitem_column (pd.dropna df) "Deaths"
  = Ok (map (λ r, pd.cell_at r k) (pd.rows (pd.dropna df))).
Proof. intros Hk. unfold pd.getitem_column. simpl. by rewrite Hk. Qed.

Lemma len_target (deaths : list (cell V)) (df : pd.frame V) :
  pd.getitem_column (pd.dropna df) "Deaths" = Ok deaths →
  len (pd.rows (pd.dropna df)) = len (pd.ffill (pd.shift deaths (-1))).
Proof.
  intros Hcol. unfold len. rewrite length_target.
  by rewrite (getitem_column_length _ _ _ Hcol).
Qed.

(** A call of [setup] that returns found the data present and did
    nothing, or cut the cleaned table in three, had the scaler accept the
    parts of its stage and stored them. *)
Lemma setup_returns source stage (w w' : world) :
  setup source stage w = (Ok (), w') →
  (cached stage w ∧ w' = w)
  ∨ (¬ cached stage w
     ∧ ∃ df deaths X_train X_val X_test y_train y_val y_test p kept kept',
         source = Ok df
         ∧ pd.getitem_column (pd.dropna df) "Deaths" = Ok deaths
         ∧ 3 ≤ len (pd.rows (pd.dropna df))
         ∧ split_of df deaths X_train X_val X_test y_train y_val y_test
         ∧ fit X_train = Ok p
         ∧ fit_done transform stage p X_train X_val y_train y_val kept
         ∧ test_done transform stage p X_test y_test kept'
         ∧ stored_as (kept ++ kept') (pd.dropna df) w w').
Proof.
  intros Hrun. apply setup_outcome in Hrun.
  inversion Hrun as [Hc| | | |
                     |df deaths X_cv X_test y_cv y_test X_train X_val
                        y_train y_val r w'' Hnc Hsrc Hcol H1 H2 Hs]; subst.
  { by left. }
  right. split; [done|].
  inversion Hs as [| | | |p kept kept' w1 Hfit Hdone Hdone' Hst]; subst.
  exists df, deaths, X_train, X_val, X_test, y_train, y_val, y_test,
    p, kept, kept'.
  split_and!; try done.
  - by eapply split_needs_three.
  - exact (chronological_split_inv _ _ _ _ _ _ _ _ _ _ H1 H2).
Qed.

(** Past the guards, on a table with a "Deaths" column and at least
    three complete rows, the split is made and the call ends as the scaler
    part does. *)
Lemma setup_splits (df : pd.frame V) stage (w : world) (k : nat) :
  ¬ cached stage w →
  guards_read w →
  pd.index_of "Deaths" (pd.columns df) = Some k →
  3 ≤ len (pd.rows (pd.dropna df)) →
  ∃ X_train X_val X_test y_train y_val y_test,
    split_of df (map (λ r, pd.cell_at r k) (pd.rows (pd.dropna df)))
      X_train X_val X_test y_train y_val y_test
    ∧ ∀ r w',
        setup (Ok df) stage w = (r, w') →
        scaled fit transform stage (pd.dropna df)
          X_train X_val X_test y_train y_val y_test w r w'.
Proof.
  intros Hnc [Htr Hte] Hk HN.
  pose proof (column_of_index df k Hk) as Hcol.
  pose proof (len_target _ _ Hcol) as Hlen.
  destruct (chronological_split _ _ Hlen HN)
    as (X_train & X_val & X_test & y_train & y_val & y_test & H1 & H2
        & Hfacts).
  exists X_train, X_val, X_test, y_train, y_val, y_test.
  split; [exact Hfacts|].
  intros r w' Hrun. apply setup_outcome in Hrun.
  inversion Hrun as [Hc|name Hname Hnone|e _ Hsrc|df' e _ Hsrc Hcol'
                     |df' deaths e _ Hsrc Hcol' Hsplit
                     |df' deaths X_cv' X_test' y_cv' y_test' X_train' X_val'
                        y_train' y_val' r' w'' _ Hsrc Hcol' H1' H2' Hs];
    subst; try done.
  - destruct Hname as [-> | ->]; rewrite Hnone in *; by destruct Htr, Hte.
  - injection Hsrc as <-. congruence.
  - injection Hsrc as <-.
    assert (deaths = map (λ r, pd.cell_at r k) (pd.rows (pd.dropna df)))
      as -> by congruence.
    by apply split_returns_enough in Hsplit.
  - injection Hsrc as <-.
    assert (deaths = map (λ r, pd.cell_at r k) (pd.rows (pd.dropna df)))
      as -> by congruence.
    rewrite H1 in H1'. injection H1' as <- <- <- <-.
    rewrite H2 in H2'. by injection H2' as <- <- <- <-.
Qed.

End Runs.

(** ** The scaler part of [setup] *)

(** The pair at hand is one of those listed. *)
Ltac among :=
  first [ apply list_elem_of_here
        | apply list_elem_of_further; among
        | apply elem_of_app; left; among
        | apply elem_of_app; right; among ].

Ltac listed := unfold fit_arrays, test_arrays; simpl; among.

Section Scaled.

Import PowerConsumptionDataModule.

Context {V : Type}.
Context {scaler : Type}.
Context (fit : ndarray V → result scaler).
Context (transform : scaler → ndarray V → result (ndarray V)).

Local Abbreviation world := (@PowerConsumptionDataModule.world V scaler).

Lemma scaled_returns stage (X : pd.frame V) X_train X_val X_test
    y_train y_val y_test (w w' : world) :
  scaled fit transform stage X X_train X_val X_test y_train y_val y_test
    w (Ok ()) w' →
  ∃ p kept kept',
    fit X_train = Ok p
    ∧ fit_done transform stage p X_train X_val y_train y_val kept
    ∧ test_done transform stage p X_test y_test kept'
    ∧ stored_as (kept ++ kept') X w w'.
Proof. inversion 1; subst. eauto 10. Qed.

(** With a scaler that accepts the parts of the stage, the scaler part
    returns. *)
Lemma scaled_accepted stage (X : pd.frame V) X_train X_val X_test
    y_train y_val y_test (w w' : world) p r :
  fit X_train = Ok p →
  (fit_stage stage →
   ∃ a b, transform p X_train = Ok a ∧ transform p X_val = Ok b) →
  (test_stage stage → ∃ c, transform p X_test = Ok c) →
  scaled fit transform stage X X_train X_val X_test y_train y_val y_test
    w r w' →
  r = Ok ().
Proof.
  intros Hfit Hf Ht Hs.
  inversion Hs as [e w1 Hfit' Hst|p' e w1 Hfit' Hstage Htr Hst
                   |p' a e w1 Hfit' Hstage Htr Hv Hst
                   |p' kept e w1 Hfit' Hdone Hstage Hte Hst
                   |p' kept kept' w1 Hfit' Hdone Hdone' Hst]; subst;
    try done; try congruence.
  - destruct (Hf Hstage) as (a & b & Ha & Hb). congruence.
  - destruct (Hf Hstage) as (a' & b & Ha & Hb). congruence.
  - destruct (Ht Hstage) as (c & Hc). congruence.
Qed.

Lemma fit_done_holds stage p X_train X_val y_train y_val kept kept'
    (X : pd.frame V) (w w' : world) :
  fit_stage stage →
  fit_done transform stage p X_train X_val y_train y_val kept →
  stored_as (kept ++ kept') X w w' →
  ∃ a b,
    transform p X_train = Ok a
    ∧ transform p X_val = Ok b
    ∧ holds w' "X_train" a
    ∧ holds w' "y_train" (reshape_column y_train)
    ∧ holds w' "X_val" b
    ∧ holds w' "y_val" (reshape_column y_val).
Proof.
  intros Hstage [(_ & a & b & Ha & Hb & ->)|[? _]] (Hheld & _); [|done].
  exists a, b. split_and!; try done; apply Hheld; listed.
Qed.

Lemma test_done_holds stage p X_test y_test kept kept'
    (X : pd.frame V) (w w' : world) :
  test_stage stage →
  test_done transform stage p X_test y_test kept' →
  stored_as (kept ++ kept') X w w' →
  ∃ c,
    transform p X_test = Ok c
    ∧ holds w' "X_test" c
    ∧ holds w' "y_test" (reshape_column y_test).
Proof.
  intros Hstage [(_ & c & Hc & ->)|[? _]] (Hheld & _); [|done].
  exists c. split_and!; try done; apply Hheld; listed.
Qed.

(** Once the scaler part has returned for a stage that stores, the data
    of the stage is present. *)
Lemma stored_cached stage p X_train X_val X_test y_train y_val y_test
    kept kept' (X : pd.frame V) (w w' : world) :
  fit_stage stage ∨ test_stage stage →
  fit_done transform stage p X_train X_val y_train y_val kept →
  test_done transform stage p X_test y_test kept' →
  stored_as (kept ++ kept') X w w' →
  cached stage w'.
Proof.
  intros Hstage Hdone Hdone' Hst. unfold cached.
  destruct (stage_cases stage) as [->|[->|[->|(Hf & Ht & Hn)]]].
  - left. split; [done|].
    edestruct fit_done_holds as (a & b & _ & _ & ? & _);
      [|exact Hdone|exact Hst|]; [by left|]. eauto.
  - right. left. split; [done|].
    edestruct test_done_holds as (c & _ & ? & _);
      [|exact Hdone'|exact Hst|]; [by left|]. eauto.
  - right. right. split; [done|].
    edestruct fit_done_holds as (a & b & _ & _ & ? & _);
      [|exact Hdone|exact Hst|]; [by right|].
    edestruct test_done_holds as (c & _ & ? & _);
      [|exact Hdone'|exact Hst|]; [by right|]. eauto.
  - by destruct Hstage as [[|]|[|]].
Qed.

End Scaled.

(** ** The dataloaders *)

Section Loaders.

Import PowerConsumptionDataModule.

Context {V : Type} (float32 : V → V).
Context {scaler : Type}.
Context (fit : ndarray V → result scaler).
Context (transform : scaler → ndarray V → result (ndarray V)).

Local Abbreviation world := (@PowerConsumptionDataModule.world V scaler).
Local Abbreviation setup := (PowerConsumptionDataModule.setup fit transform).

Lemma train_dataloader_raises (w : world) :
  holds_None w "X_train" →
  holds_None w "y_train" →
  train_dataloader float32 w = (Raise RuntimeError, w).
Proof.
  unfold holds_None, train_dataloader. intros HX Hy. run.
  by rewrite HX, Hy.
Qed.

Lemma val_dataloader_raises (w : world) :
  holds_None w "X_val" →
  holds_None w "y_val" →
  val_dataloader float32 w = (Raise RuntimeError, w).
Proof.
  unfold holds_None, val_dataloader. intros HX Hy. run.
  by rewrite HX, Hy.
Qed.

Lemma test_dataloader_raises (w : world) :
  holds_None w "X_test" →
  arrays (self w) !! "y_test" = None →
  test_dataloader float32 w = (Raise AttributeError, w).
Proof.
  unfold holds_None, test_dataloader. intros HX Hy. run.
  by rewrite HX, Hy.
Qed.

Lemma train_dataloader_reads (w : world) :
  train_dataloader float32 w
  = (loader_of float32 (arrays (self w) !! "X_train") (arrays (self w) !! "y_train")
       (self w), w).
Proof.
  unfold train_dataloader, loader_of. run.
  destruct (arrays (self w) !! "X_train") as [X|]; simpl; [|done].
  destruct (arrays (self w) !! "y_train") as [y|]; simpl; [|done].
  by destruct (TimeseriesDataset.__init__ float32 X y (seq_len (self w))).
Qed.

Lemma val_dataloader_reads (w : world) :
  val_dataloader float32 w
  = (loader_of float32 (arrays (self w) !! "X_val") (arrays (self w) !! "y_val")
       (self w), w).
Proof.
  unfold val_dataloader, loader_of. run.
  destruct (arrays (self w) !! "X_val") as [X|]; simpl; [|done].
  destruct (arrays (self w) !! "y_val") as [y|]; simpl; [|done].
  by destruct (TimeseriesDataset.__init__ float32 X y (seq_len (self w))).
Qed.

Lemma test_dataloader_reads (w : world) :
  test_dataloader float32 w
  = (loader_of float32 (arrays (self w) !! "X_test") (arrays (self w) !! "y_test")
       (self w), w).
Proof.
  unfold test_dataloader, loader_of. run.
  destruct (arrays (self w) !! "X_test") as [X|]; simpl; [|done].
  destruct (arrays (self w) !! "y_test") as [y|]; simpl; [|done].
  by destruct (TimeseriesDataset.__init__ float32 X y (seq_len (self w))).
Qed.

(** The dataloaders read the instance and leave it as it is. *)
Lemma train_dataloader_world (w : world) : (train_dataloader float32 w).2 = w.
Proof. by rewrite train_dataloader_reads. Qed.

Lemma val_dataloader_world (w : world) : (val_dataloader float32 w).2 = w.
Proof. by rewrite val_dataloader_reads. Qed.

Lemma test_dataloader_world (w : world) : (test_dataloader float32 w).2 = w.
Proof. by rewrite test_dataloader_reads. Qed.

Lemma not_fit_assigned (stage : option string) (name : string) :
  ¬ fit_stage stage →
  name ∈ ["X_train"; "y_train"; "X_val"; "y_val"] →
  name ∉ assigned stage.
Proof.
  intros Hstage Hname. unfold assigned.
  rewrite decide_False by done.
  case_decide; set_unfold; intuition congruence.
Qed.

Lemma not_test_assigned (stage : option string) (name : string) :
  ¬ test_stage stage →
  name ∈ ["X_test"; "y_test"] →
  name ∉ assigned stage.
Proof.
  intros Hstage Hname. unfold assigned.
  rewrite (decide_False (P := test_stage stage)) by done.
  case_decide; set_unfold; intuition congruence.
Qed.

(** Until [setup] is called for the fit stage or for no stage, the train
    and validation attributes hold [None]. *)
Lemma uncalled_before_fit (w : world) (name : string) :
  uncalled float32 fit transform fit_stage w →
  name ∈ ["X_train"; "y_train"; "X_val"; "y_val"] →
  holds_None w name.
Proof.
  unfold holds_None. intros Hw Hname.
  induction Hw as [s b n|source stage w Hw IH Hstage
                   |w Hw IH|w Hw IH|w Hw IH].
  - set_unfold. by destruct Hname as [->|[->|[->|[->|[]]]]].
  - rewrite setup_keeps; [done|]. by apply not_fit_assigned.
  - by rewrite train_dataloader_world.
  - by rewrite val_dataloader_world.
  - by rewrite test_dataloader_world.
Qed.

(** Until [setup] has returned for the test stage or for no stage,
    [X_test] holds [None] and the instance has no attribute [y_test]. *)
Lemma reached_before_test (w : world) :
  reached float32 fit transform test_stage w →
  holds_None w "X_test" ∧ arrays (self w) !! "y_test" = None.
Proof.
  unfold holds_None. intros Hw.
  induction Hw as [s b n|source stage w Hw IH Hstage|source stage w e Hw IH He
                   |w Hw IH|w Hw IH|w Hw IH].
  - done.
  - rewrite !setup_keeps; [done|apply not_test_assigned; set_unfold; auto..].
  - rewrite !(setup_raised_keeps_test _ _ _ _ _ e); auto.
  - by rewrite train_dataloader_world.
  - by rewrite val_dataloader_world.
  - by rewrite test_dataloader_world.
Qed.

End Loaders.

(** ** The first run for no stage *)

Lemma sizes_agree (N t v tr t' v' tr' : Z) :
  t = Qceiling (0.10 * inject_Z N) →
  v = Qceiling (0.05 * inject_Z (N - t)) →
  tr = N - t - v →
  t' = Qceiling (0.10 * inject_Z N) →
  v' = Qceiling (0.05 * inject_Z (N - t')) →
  tr' = N - t' - v' →
  t' = t ∧ v' = v ∧ tr' = tr.
Proof. intros. by subst. Qed.

Lemma parts_agree {A} (a b c a' b' c' : list A) :
  a ++ b ++ c = a' ++ b' ++ c' →
  len a = len a' →
  len b = len b' →
  a = a' ∧ b = b' ∧ c = c'.
Proof.
  unfold len. intros Heq Ha Hb.
  apply app_inj_1 in Heq as [-> Heq]; [|lia].
  apply app_inj_1 in Heq as [-> ->]; [done|lia].
Qed.

Lemma lookup_three_parts {A} (a b c : list A) (i : nat) (x : A) :
  (a ++ b ++ c) !! i = Some x →
  ((i < length a)%nat ∧ a !! i = Some x)
  ∨ ((length a ≤ i < length a + length b)%nat
     ∧ b !! (i - length a)%nat = Some x)
  ∨ ((length a + length b ≤ i)%nat
     ∧ c !! (i - length a - length b)%nat = Some x).
Proof.
  rewrite lookup_app_Some. intros [Ha|[Hi Hbc]].
  - left. split; [|done]. by apply lookup_lt_Some in Ha.
  - apply lookup_app_Some in Hbc as [Hb|[Hi' Hc]].
    + right. left. split; [|done]. apply lookup_lt_Some in Hb. lia.
    + right. right. split; [lia|done].
Qed.

(** The table and its "Deaths" column fix the six parts. *)
Lemma split_of_unique {V} (df : pd.frame V) (deaths : list (cell V))
    X_train X_val X_test y_train y_val y_test
    X_train' X_val' X_test' y_train' y_val' y_test' :
  split_of df deaths X_train X_val X_test y_train y_val y_test →
  split_of df deaths X_train' X_val' X_test' y_train' y_val' y_test' →
  X_train' = X_train ∧ X_val' = X_val ∧ X_test' = X_test
  ∧ y_train' = y_train ∧ y_val' = y_val ∧ y_test' = y_test.
Proof.
  intros (HX & Hy & Ht & Hv & Htr & _ & Hytr & Hyv & Hyte)
         (HX' & Hy' & Ht' & Hv' & Htr' & _ & Hytr' & Hyv' & Hyte').
  destruct (sizes_agree _ _ _ _ _ _ _ Ht Hv Htr Ht' Hv' Htr')
    as (Het & Hev & Hetr).
  destruct (parts_agree X_train' X_val' X_test' X_train X_val X_test)
    as (-> & -> & ->); [congruence|lia..|].
  destruct (parts_agree y_train' y_val' y_test' y_train y_val y_test)
    as (-> & -> & ->); [congruence|lia..|].
  done.
Qed.

Section FirstRun.

Import PowerConsumptionDataModule.

Context {V : Type}.
Context {scaler : Type}.
Context (fit : ndarray V → result scaler).
Context (transform : scaler → ndarray V → result (ndarray V)).

Local Abbreviation world := (@PowerConsumptionDataModule.world V scaler).
Local Abbreviation setup := (PowerConsumptionDataModule.setup fit transform).

Lemma holds_None_not_cached (w : world) :
  holds_None w "X_train" → ¬ cached None w.
Proof.
  unfold holds_None, cached, holds.
  intros HN [[? _]|[[? _]|(_ & [a Ha] & _)]]; congruence.
Qed.

Lemma holds_None_uncached (stage : option string) (w : world) :
  holds_None w "X_train" → holds_None w "X_test" → ¬ cached stage w.
Proof. unfold holds_None. intros ? ?. not_cached. Qed.

Lemma holds_None_guards_read (w : world) :
  holds_None w "X_train" → holds_None w "X_test" → guards_read w.
Proof.
  unfold holds_None, guards_read. intros -> ->. split; by eexists.
Qed.

(** What the scaler part has stored when it returns for no stage. *)
Lemma scaled_None_holds (X : pd.frame V) X_train X_val X_test
    y_train y_val y_test (w w' : world) :
  scaled fit transform None X X_train X_val X_test y_train y_val y_test
    w (Ok ()) w' →
  ∃ p a b c,
    fit X_train = Ok p
    ∧ transform p X_train = Ok a
    ∧ transform p X_val = Ok b
    ∧ transform p X_test = Ok c
    ∧ holds w' "X_train" a
    ∧ holds w' "y_train" (reshape_column y_train)
    ∧ holds w' "X_val" b
    ∧ holds w' "y_val" (reshape_column y_val)
    ∧ holds w' "X_test" c
    ∧ holds w' "y_test" (reshape_column y_test).
Proof.
  intros Hs.
  apply scaled_returns in Hs as (p & kept & kept' & Hfit & Hd & Hd' & Hst).
  destruct (fit_done_holds transform None _ _ _ _ _ _ _ _ _ _
              (or_intror eq_refl) Hd Hst) as (a & b & ? & ? & ? & ? & ? & ?).
  destruct (test_done_holds transform None _ _ _ _ _ _ _ _
              (or_intror eq_refl) Hd' Hst) as (c & ? & ? & ?).
  exists p, a, b, c. done.
Qed.

(** The first run of [setup] for no stage, on a table with a "Deaths"
    column and at least three complete rows: the rows and the targets are
    cut in three, the call returns when the scaler accepts the three
    parts, and when it returns the six arrays are stored. *)
Lemma setup_first_run (df : pd.frame V) (w : world) (k : nat) :
  holds_None w "X_train" →
  holds_None w "X_test" →
  pd.index_of "Deaths" (pd.columns df) = Some k →
  3 ≤ len (pd.rows (pd.dropna df)) →
  ∃ X_train X_val X_test y_train y_val y_test,
    split_of df (map (λ r, pd.cell_at r k) (pd.rows (pd.dropna df)))
      X_train X_val X_test y_train y_val y_test
    ∧ (∀ p a b c,
         fit X_train = Ok p →
         transform p X_train = Ok a →
         transform p X_val = Ok b →
         transform p X_test = Ok c →
         ∃ w', setup (Ok df) None w = (Ok (), w'))
    ∧ (∀ w',
         setup (Ok df) None w = (Ok (), w') →
         ∃ p a b c,
           fit X_train = Ok p
           ∧ transform p X_train = Ok a
           ∧ transform p X_val = Ok b
           ∧ transform p X_test = Ok c
           ∧ holds w' "X_train" a
           ∧ holds w' "y_train" (reshape_column y_train)
           ∧ holds w' "X_val" b
           ∧ holds w' "y_val" (reshape_column y_val)
           ∧ holds w' "X_test" c
           ∧ holds w' "y_test" (reshape_column y_test)).
Proof.
  intros Htrain Htest Hk HN.
  destruct (setup_splits fit transform df None w k
              (holds_None_not_cached w Htrain)
              (holds_None_guards_read w Htrain Htest) Hk HN)
    as (X_train & X_val & X_test & y_train & y_val & y_test & Hsplit
        & Hrun).
  exists X_train, X_val, X_test, y_train, y_val, y_test.
  split; [done|]. split.
  - intros p a b c Hfit Ha Hb Hc.
    destruct (setup (Ok df) None w) as [r w'] eqn:E.
    specialize (Hrun r w' eq_refl).
    assert (r = Ok ()) as ->; [|by exists w'].
    eapply scaled_accepted; [exact Hfit| | |exact Hrun]; eauto.
  - intros w' E. exact (scaled_None_holds _ _ _ _ _ _ _ _ _ (Hrun _ _ E)).
Qed.

End FirstRun.

(** ** The split, the scaler and the stages *)

Section SetupAndLoaders.

Import PowerConsumptionDataModule.

Context {V : Type} (float32 : V → V).
Context {scaler : Type}.
Context (fit : ndarray V → result scaler).
Context (transform : scaler → ndarray V → result (ndarray V)).

Local Abbreviation world := (@PowerConsumptionDataModule.world V scaler).
Local Abbreviation setup := (PowerConsumptionDataModule.setup fit transform).

(** C3: the split keeps the order and cuts the cleaned rows in three
    without overlap.  On a table with a "Deaths" column and at least three
    complete rows, the train, validation and test rows of the first
    [setup] for no stage, in that order, are the cleaned rows, the test
    rows being the last tenth (rounded up) and the validation rows the last
    twentieth (rounded up) of the others, and every row position falls in
    exactly one part.  The call returns when the scaler accepts the three
    parts; and when the call returns, the scaler has accepted them and
    each part is stored as transformed. *)
Theorem split_is_chronological (df : pd.frame V) (w : world) (k : nat) :
  holds_None w "X_train" →
  holds_None w "X_test" →
  pd.index_of "Deaths" (pd.columns df) = Some k →
  3 ≤ len (pd.rows (pd.dropna df)) →
  ∃ train val test,
    pd.rows (pd.dropna df) = train ++ val ++ test
    ∧ len test = Qceiling (0.10 * inject_Z (len (pd.rows (pd.dropna df))))
    ∧ len val
      = Qceiling (0.05 * inject_Z (len (pd.rows (pd.dropna df)) - len test))
    ∧ len train = len (pd.rows (pd.dropna df)) - len test - len val
    ∧ 1 ≤ len train
    ∧ (∀ (i : nat) (r : row V),
         pd.rows (pd.dropna df) !! i = Some r →
         ((i < length train)%nat ∧ train !! i = Some r)
         ∨ ((length train ≤ i < length train + length val)%nat
            ∧ val !! (i - length train)%nat = Some r)
         ∨ ((length train + length val ≤ i)%nat
            ∧ test !! (i - length train - length val)%nat = Some r))
    ∧ (∀ p a b c,
         fit train = Ok p →
         transform p train = Ok a →
         transform p val = Ok b →
         transform p test = Ok c →
         ∃ w', setup (Ok df) None w = (Ok (), w')
               ∧ holds w' "X_train" a
               ∧ holds w' "X_val" b
               ∧ holds w' "X_test" c)
    ∧ (∀ w',
         setup (Ok df) None w = (Ok (), w') →
         ∃ p a b c,
           fit train = Ok p
           ∧ transform p train = Ok a
           ∧ transform p val = Ok b
           ∧ transform p test = Ok c
           ∧ holds w' "X_train" a
           ∧ holds w' "X_val" b
           ∧ holds w' "X_test" c).
Proof.
  intros Htrain Htest Hk HN.
  destruct (setup_first_run fit transform df w k Htrain Htest Hk HN)
    as (X_train & X_val & X_test & y_train & y_val & y_test & Hsplit
        & Hreturns & Hstored).
  destruct Hsplit as (Hrows & _ & Hlt & Hlv & Hltr & Hpos & _).
  exists X_train, X_val, X_test.
  split_and!; try done.
  - intros i r. rewrite Hrows. apply lookup_three_parts.
  - intros p a b c Hfit Ha Hb Hc.
    destruct (Hreturns p a b c Hfit Ha Hb Hc) as [w' Hrun].
    exists w'. split; [done|].
    destruct (Hstored w' Hrun)
      as (p' & a' & b' & c' & Hfit' & Ha' & Hb' & Hc' & HXtr & _ & HXv & _
          & HXte & _).
    assert (p' = p) as -> by congruence.
    assert (a' = a) as -> by congruence.
    assert (b' = b) as -> by congruence.
    assert (c' = c) as -> by congruence.
    done.
  - intros w' Hrun.
    destruct (Hstored w' Hrun)
      as (p & a & b & c & Hfit & Ha & Hb & Hc & HXtr & _ & HXv & _
          & HXte & _).
    by exists p, a, b, c.
Qed.

(** C4: the scaler is fitted on the train rows alone and its one
    transform is applied to the three parts, and the targets are reshaped
    to columns without passing through it.  When the first [setup] for no
    stage returns, the three stored feature arrays are the three parts
    transformed with the parameters fitted on the train part, and the
    stored targets are the reshaped parts of the target series.  On a
    table that agrees on the row count and on the train rows the fit is
    the same call, whatever the validation and test rows; and the stored
    targets are the same for every scaler with which [setup] returns. *)
Theorem scaler_fitted_on_train (df : pd.frame V) (w : world) (k : nat) :
  holds_None w "X_train" →
  holds_None w "X_test" →
  pd.index_of "Deaths" (pd.columns df) = Some k →
  3 ≤ len (pd.rows (pd.dropna df)) →
  ∃ deaths train val test y_train y_val y_test,
    pd.rows (pd.dropna df) = train ++ val ++ test
    ∧ pd.getitem_column (pd.dropna df) "Deaths" = Ok deaths
    ∧ pd.ffill (pd.shift deaths (-1)) = y_train ++ y_val ++ y_test
    ∧ (∀ w',
         setup (Ok df) None w = (Ok (), w') →
         ∃ p a b c,
           fit train = Ok p
           ∧ transform p train = Ok a
           ∧ transform p val = Ok b
           ∧ transform p test = Ok c
           ∧ holds w' "X_train" a
           ∧ holds w' "X_val" b
           ∧ holds w' "X_test" c
           ∧ holds w' "y_train" (reshape_column y_train)
           ∧ holds w' "y_val" (reshape_column y_val)
           ∧ holds w' "y_test" (reshape_column y_test))
    ∧ (∀ p a b c,
         fit train = Ok p →
         transform p train = Ok a →
         transform p val = Ok b →
         transform p test = Ok c →
         ∃ w', setup (Ok df) None w = (Ok (), w'))
    ∧ (∀ (df2 : pd.frame V) (k2 : nat),
         pd.index_of "Deaths" (pd.columns df2) = Some k2 →
         length (pd.rows (pd.dropna df2)) = length (pd.rows (pd.dropna df)) →
         take (length train) (pd.rows (pd.dropna df2)) = train →
         ∃ val2 test2,
           pd.rows (pd.dropna df2) = train ++ val2 ++ test2
           ∧ length val2 = length val
           ∧ length test2 = length test
           ∧ (∀ w2,
                setup (Ok df2) None w = (Ok (), w2) →
                ∃ p a b c,
                  fit train = Ok p
                  ∧ transform p train = Ok a
                  ∧ transform p val2 = Ok b
                  ∧ transform p test2 = Ok c
                  ∧ holds w2 "X_train" a
                  ∧ holds w2 "X_val" b
                  ∧ holds w2 "X_test" c)
           ∧ (∀ p a b c,
                fit train = Ok p →
                transform p train = Ok a →
                transform p val2 = Ok b →
                transform p test2 = Ok c →
                ∃ w2, setup (Ok df2) None w = (Ok (), w2)))
    ∧ (∀ (fit' : ndarray V → result scaler)
         (transform' : scaler → ndarray V → result (ndarray V)) w2,
         PowerConsumptionDataModule.setup fit' transform' (Ok df) None w
         = (Ok (), w2) →
         holds w2 "y_train" (reshape_column y_train)
         ∧ holds w2 "y_val" (reshape_column y_val)
         ∧ holds w2 "y_test" (reshape_column y_test)).
Proof.
  intros Htrain Htest Hk HN.
  destruct (setup_first_run fit transform df w k Htrain Htest Hk HN)
    as (X_train & X_val & X_test & y_train & y_val & y_test & Hsplit
        & Hreturns & Hstored).
  exists (map (λ r, pd.cell_at r k) (pd.rows (pd.dropna df))),
    X_train, X_val, X_test, y_train, y_val, y_test.
  pose proof Hsplit as (Hrows & Htarget & Hlt & Hlv & Hltr & Hpos & _).
  split_and!; try done.
  - by apply column_of_index.
  - intros w' Hrun.
    destruct (Hstored w' Hrun)
      as (p & a & b & c & ? & ? & ? & ? & ? & ? & ? & ? & ? & ?).
    by exists p, a, b, c.
  - intros df2 k2 Hk2 HN2 Hsame.
    assert (len (pd.rows (pd.dropna df2)) = len (pd.rows (pd.dropna df)))
      as HN2' by (unfold len; by rewrite HN2).
    destruct (setup_first_run fit transform df2 w k2)
      as (X_train2 & X_val2 & X_test2 & y_train2 & y_val2 & y_test2
          & Hsplit2 & Hreturns2 & Hstored2); try done.
    { by rewrite HN2'. }
    destruct Hsplit2 as (Hrows2 & _ & Hlt2 & Hlv2 & Hltr2 & _).
    rewrite HN2' in Hlt2, Hlv2, Hltr2.
    destruct (sizes_agree _ _ _ _ _ _ _ Hlt Hlv Hltr Hlt2 Hlv2 Hltr2)
      as (Het & Hev & Hetr).
    assert (X_train2 = X_train) as ->.
    { rewrite <- Hsame, Hrows2.
      replace (length X_train) with (length X_train2)
        by (unfold len in *; lia).
      by rewrite take_app_length. }
    exists X_val2, X_test2.
    split_and!; [done|unfold len in *; lia..| |done].
    intros w2 Hrun2.
    destruct (Hstored2 w2 Hrun2)
      as (p & a & b & c & ? & ? & ? & ? & ? & ? & ? & ? & ? & ?).
    by exists p, a, b, c.
  - intros fit' transform' w2 Hrun2.
    destruct (setup_first_run fit' transform' df w k Htrain Htest Hk HN)
      as (X_train2 & X_val2 & X_test2 & y_train2 & y_val2 & y_test2
          & Hsplit2 & _ & Hstored2).
    destruct (split_of_unique _ _ _ _ _ _ _ _ _ _ _ _ _ _ Hsplit Hsplit2)
      as (-> & -> & -> & -> & -> & ->).
    destruct (Hstored2 w2 Hrun2)
      as (p & a & b & c & ? & ? & ? & ? & ? & ? & ? & ? & ? & ?).
    done.
Qed.

(** C6: [setup] is idempotent per stage.  With the data of the stage
    present (the train data for 'fit', the test data for 'test', both for
    no stage) a call returns at once and changes nothing, whatever the
    source; and once a call for one of these stages has returned, the data
    of the stage is present, so a second call leaves the world, and with it
    the train, validation and test arrays, as the first one left them. *)
Theorem setup_idempotent :
  (∀ source stage (w : world),
     cached stage w → setup source stage w = (Ok (), w))
  ∧ (∀ source source' stage (w w1 : world),
       fit_stage stage ∨ test_stage stage →
       setup source stage w = (Ok (), w1) →
       cached stage w1 ∧ setup source' stage w1 = (Ok (), w1)).
Proof.
  split; [apply setup_cached|].
  intros source source' stage w w1 Hstage Hrun.
  assert (cached stage w1) as Hc.
  { destruct (setup_returns _ _ _ _ _ _ Hrun)
      as [[Hc ->]|(_ & df & deaths & X_train & X_val & X_test & y_train
                   & y_val & y_test & p & kept & kept' & _ & _ & _ & _ & _
                   & Hd & Hd' & Hst)]; [done|].
    by eapply stored_cached. }
  split; [done|]. by apply setup_cached.
Qed.

(** C9: a dataloader requested before [setup] has run for its stage
    fails and runs no [setup]: the world is as it was.  While [setup] was
    not called for the fit stage or for no stage, the train and
    validation dataloaders find [None] where the arrays should be and the
    tensor construction raises [RuntimeError]; until a [setup] for the
    test stage or for no stage has returned, the test dataloader raises
    [AttributeError].  Calls of [setup] for other stages and of the
    dataloaders may come before. *)
Theorem dataloader_before_setup :
  (∀ w : world,
     uncalled float32 fit transform fit_stage w →
     train_dataloader float32 w = (Raise RuntimeError, w)
     ∧ val_dataloader float32 w = (Raise RuntimeError, w))
  ∧ (∀ w : world,
       reached float32 fit transform test_stage w →
       test_dataloader float32 w = (Raise AttributeError, w)).
Proof.
  split.
  - intros w Hw.
    split; [apply train_dataloader_raises|apply val_dataloader_raises];
      apply (uncalled_before_fit float32 fit transform w _ Hw);
      set_unfold; tauto.
  - intros w Hw.
    destruct (reached_before_test float32 fit transform w Hw).
    by apply test_dataloader_raises.
Qed.

(** C10: the constructor leaves [X_train], [y_train], [X_val], [y_val] and
    [X_test] at [None] and never assigns [y_test], so that until [setup]
    has returned for the test stage or for no stage the instance has no
    such attribute: reading it raises [AttributeError], in the test
    dataloader too.  A [setup] for one of these stages that returns
    assigns it. *)
Theorem y_test_not_initialized :
  (∀ seq_len batch_size num_workers : Z,
     let o := __init__ (V := V) (scaler := scaler)
                seq_len batch_size num_workers in
     arrays o !! "X_train" = Some None
     ∧ arrays o !! "y_train" = Some None
     ∧ arrays o !! "X_val" = Some None
     ∧ arrays o !! "y_val" = Some None
     ∧ arrays o !! "X_test" = Some None
     ∧ arrays o !! "y_test" = None)
  ∧ (∀ w : world,
       reached float32 fit transform test_stage w →
       arrays (self w) !! "y_test" = None
       ∧ getattr "y_test" w = (Raise AttributeError, w)
       ∧ test_dataloader float32 w = (Raise AttributeError, w))
  ∧ (∀ source stage (w w' : world),
       reached float32 fit transform test_stage w →
       test_stage stage →
       setup source stage w = (Ok (), w') →
       ∃ a, holds w' "y_test" a).
Proof.
  split; [done|]. split.
  - intros w Hw.
    destruct (reached_before_test float32 fit transform w Hw) as [HX Hy].
    split; [done|]. split.
    + unfold getattr. by rewrite Hy.
    + by apply test_dataloader_raises.
  - intros source stage w w' Hw Hstage Hrun.
    destruct (reached_before_test float32 fit transform w Hw) as [HX Hy].
    destruct (setup_returns _ _ _ _ _ _ Hrun)
      as [[Hc ->]|(_ & df & deaths & X_train & X_val & X_test & y_train
                   & y_val & y_test & p & kept & kept' & _ & _ & _ & _ & _
                   & Hd & Hd' & Hst)].
    + unfold holds_None in HX. unfold cached, holds in Hc.
      destruct Hstage as [-> | ->];
        destruct Hc as [[? ?]|[[? [a Ha]]|(? & _ & [a Ha])]]; congruence.
    + destruct (test_done_holds transform stage _ _ _ _ _ _ _ _
                  Hstage Hd' Hst) as (c & _ & _ & ?). eauto.
Qed.

End SetupAndLoaders.

(** ** The target series in the stored arrays *)

Lemma deaths_complete {V} (df : pd.frame V) (k : nat) :
  pd.index_of "Deaths" (pd.columns df) = Some k →
  Forall (λ x, isna x = false)
    (map (λ r, pd.cell_at r k) (pd.rows (pd.dropna df))).
Proof.
  intros Hk. apply (dropna_column_complete df "Deaths").
  by apply column_of_index.
Qed.

(** The target of position [j] is the deaths value of the row after it. *)
Lemma target_at {V} (df : pd.frame V) (k j : nat) (r : row V) :
  pd.index_of "Deaths" (pd.columns df) = Some k →
  pd.rows (pd.dropna df) !! (j + 1)%nat = Some r →
  pd.ffill (pd.shift (map (λ r, pd.cell_at r k) (pd.rows (pd.dropna df)))
              (-1)) !! j
  = Some (pd.cell_at r k).
Proof.
  intros Hk Hr. rewrite target_lookup.
  - by rewrite list_lookup_fmap, Hr.
  - by apply deaths_complete.
  - rewrite length_map. by apply lookup_lt_Some in Hr.
Qed.

(** With two rows or more, the last target is the deaths value of the
    last row. *)
Lemma target_at_last {V} (df : pd.frame V) (k : nat) (r : row V) :
  pd.index_of "Deaths" (pd.columns df) = Some k →
  (2 ≤ length (pd.rows (pd.dropna df)))%nat →
  last (pd.rows (pd.dropna df)) = Some r →
  last (pd.ffill (pd.shift (map (λ r, pd.cell_at r k)
                              (pd.rows (pd.dropna df))) (-1)))
  = Some (pd.cell_at r k).
Proof.
  intros Hk HN Hr.
  destruct (length (pd.rows (pd.dropna df))) as [|[|n]] eqn:Hlen; [lia..|].
  rewrite last_lookup, length_target, length_map, Hlen. simpl.
  rewrite (target_last _ n).
  - rewrite last_lookup, Hlen in Hr. simpl in Hr.
    by rewrite list_lookup_fmap, Hr.
  - by apply deaths_complete.
  - by rewrite length_map.
Qed.

(** C5: the target series is the "Deaths" column moved one row back, the
    last position filled with the value before it.  When the first
    [setup] for no stage returns, the targets it has stored as [y_train],
    [y_val] and [y_test] are, put end to end, as many as the cleaned rows;
    the target of row [i] is the deaths value of row [i+1], and the last
    target is the deaths value of the last row.  The series
    [10, 12, 15, 15] gives [12, 15, 15, 15], and on the sample table,
    whose cleaned "Deaths" column it is, [setup] stores these four
    targets. *)
Theorem target_is_next_deaths :
  (∀ (V scaler : Type) (fit : ndarray V → result scaler)
     (transform : scaler → ndarray V → result (ndarray V))
     (df : pd.frame V)
     (w w' : PowerConsumptionDataModule.world (V := V) (scaler := scaler)),
     ¬ cached None w →
     PowerConsumptionDataModule.setup fit transform (Ok df) None w
     = (Ok (), w') →
     ∃ k y_train y_val y_test,
       pd.index_of "Deaths" (pd.columns df) = Some k
       ∧ holds w' "y_train" (reshape_column y_train)
       ∧ holds w' "y_val" (reshape_column y_val)
       ∧ holds w' "y_test" (reshape_column y_test)
       ∧ length (y_train ++ y_val ++ y_test)
         = length (pd.rows (pd.dropna df))
       ∧ (∀ i r,
            pd.rows (pd.dropna df) !! S i = Some r →
            (y_train ++ y_val ++ y_test) !! i = Some (pd.cell_at r k))
       ∧ (∀ r,
            last (pd.rows (pd.dropna df)) = Some r →
            last (y_train ++ y_val ++ y_test) = Some (pd.cell_at r k)))
  ∧ pd.ffill (pd.shift [Num 10; Num 12; Num 15; Num 15] (-1))
    = [Num 12; Num 15; Num 15; Num 15]
  ∧ (∃ w',
       PowerConsumptionDataModule.setup fit0 transform0
         (Ok deaths_table) None world0 = (Ok (), w')
       ∧ pd.getitem_column (pd.dropna deaths_table) "Deaths"
         = Ok [Num 10; Num 12; Num 15; Num 15]
       ∧ holds w' "y_train" [[Num 12]; [Num 15]]
       ∧ holds w' "y_val" [[Num 15]]
       ∧ holds w' "y_test" [[Num 15]]).
Proof.
  split; [|split; [reflexivity|]].
  - intros V scaler fit transform df w w' Hnc Hrun.
    destruct (setup_returns _ _ _ _ _ _ Hrun)
      as [[Hc _]|(_ & df' & deaths & X_train & X_val & X_test & y_train
                  & y_val & y_test & p & kept & kept' & Hsrc & Hcol & HN
                  & Hsplit & _ & Hd & Hd' & Hst)]; [done|].
    injection Hsrc as <-.
    destruct (column_inv df deaths Hcol) as (k & Hk & ->).
    destruct Hsplit as (_ & Htarget & _).
    destruct (fit_done_holds transform None _ _ _ _ _ _ _ _ _ _
                (or_intror eq_refl) Hd Hst) as (a & b & _ & _ & _ & ? & _ & ?).
    destruct (test_done_holds transform None _ _ _ _ _ _ _ _
                (or_intror eq_refl) Hd' Hst) as (c & _ & _ & ?).
    exists k, y_train, y_val, y_test.
    rewrite <- Htarget. split_and!; try done.
    + by rewrite length_target, length_map.
    + intros i r Hr. apply target_at; [done|]. by rewrite Nat.add_1_r.
    + intros r Hr. apply target_at_last; [done| |done].
      unfold len in HN. lia.
  - eexists. split; [vm_compute; reflexivity|]. by split_and!.
Qed.

(** ** The properties on the sample table *)

Lemma world0_None :
  holds_None world0 "X_train" ∧ holds_None world0 "X_test".
Proof. by split. Qed.

Lemma world0_uncached (stage : option string) : ¬ cached stage world0.
Proof. by apply holds_None_uncached. Qed.

Lemma world0_guards_read : guards_read world0.
Proof. by apply holds_None_guards_read. Qed.

Lemma split_is_chronological_witness :
  ∃ train val test,
    pd.rows (pd.dropna deaths_table) = train ++ val ++ test
    ∧ len test = 1
    ∧ ∃ c, holds (PowerConsumptionDataModule.setup fit0 transform0
                    (Ok deaths_table) None world0).2 "X_test" c.
Proof.
  destruct (split_is_chronological fit0 transform0 deaths_table world0 1)
    as (train & val & test & Hrows & Ht & _ & _ & _ & _ & _ & Hstored);
    [reflexivity | reflexivity | reflexivity | by vm_compute |].
  exists train, val, test. split; [exact Hrows|]. split; [exact Ht|].
  destruct (Hstored _ eq_refl) as (p & a & b & c & _ & _ & _ & _ & _ & _ & Hc).
  by exists c.
Defined.

Lemma scaler_fitted_on_train_witness :
  ∃ y_train,
    holds (PowerConsumptionDataModule.setup fit0 transform0
             (Ok deaths_table) None world0).2 "y_train"
      (reshape_column y_train).
Proof.
  destruct (scaler_fitted_on_train fit0 transform0 deaths_table world0 1)
    as (deaths & train & val & test & y_train & y_val & y_test & _ & _ & _
        & Hstored & _);
    [reflexivity | reflexivity | reflexivity | by vm_compute |].
  exists y_train.
  destruct (Hstored _ eq_refl)
    as (p & a & b & c & _ & _ & _ & _ & _ & _ & _ & Hy & _).
  exact Hy.
Defined.

Lemma target_is_next_deaths_witness :
  ∃ y_train y_val y_test,
    holds (PowerConsumptionDataModule.setup fit0 transform0
             (Ok deaths_table) None world0).2 "y_train"
      (reshape_column y_train)
    ∧ (y_train ++ y_val ++ y_test) !! 0%nat = Some (Num 12).
Proof.
  destruct target_is_next_deaths as [Hgen _].
  destruct (Hgen Z Z fit0 transform0 deaths_table world0 _
              (world0_uncached None) eq_refl)
    as (k & y_train & y_val & y_test & Hk & Hy & _ & _ & _ & Hnext & _).
  exists y_train, y_val, y_test. split; [exact Hy|].
  injection Hk as <-.
  exact (Hnext 0%nat [Num 120; Num 12] eq_refl).
Defined.

Lemma setup_idempotent_witness :
  let w1 := (PowerConsumptionDataModule.setup fit0 transform0
               (Ok deaths_table) None world0).2 in
  PowerConsumptionDataModule.setup fit0 transform0 (Raise OSError) None w1
  = (Ok (), w1).
Proof.
  intros w1.
  destruct (setup_idempotent fit0 transform0) as [_ Htwice].
  apply (Htwice (Ok deaths_table) (Raise OSError) None world0 w1);
    [by right; right | reflexivity].
Defined.

Lemma dataloader_before_setup_witness :
  let w1 := (PowerConsumptionDataModule.setup fit0 transform0
               (Ok deaths_table) (Some "test") world0).2 in
  PowerConsumptionDataModule.train_dataloader id w1 = (Raise RuntimeError, w1).
Proof.
  intros w1.
  destruct (dataloader_before_setup id fit0 transform0) as [Hfit _].
  apply Hfit. apply uncalled_setup; [apply uncalled_new|].
  unfold fit_stage. intros [|]; discriminate.
Defined.

Lemma y_test_not_initialized_witness :
  PowerConsumptionDataModule.test_dataloader id world0
  = (Raise AttributeError, world0).
Proof.
  destruct (y_test_not_initialized id fit0 transform0) as (_ & Hread & _).
  apply Hread. apply reached_new.
Defined.

(** * Further properties *)

(** ** Errors and stages of [setup] *)

Lemma train_test_split_raises {A B} (X : list A) (y : list B) (q : Q)
    (e : exn) :
  sklearn.train_test_split X y q = Raise e → e = ValueError.
Proof.
  unfold sklearn.train_test_split, sklearn.validate_shuffle_split.
  destruct (negb (len X =? len y)); [by intros [= <-]|].
  destruct (Qle_bool q 0 || Qle_bool 1 q); simpl; [by intros [= <-]|].
  destruct (len X - Qceiling (q * inject_Z (len X)) =? 0); simpl;
    [by intros [= <-]|done].
Qed.

Lemma split_raises_ValueError {A B} (X : list A) (y : list B) (e : exn) :
  split_raises X y e → e = ValueError.
Proof.
  intros [H|(? & ? & ? & ? & _ & H)]; by apply train_test_split_raises in H.
Qed.

Lemma getitem_column_raises {V} (df : pd.frame V) (name : string) (e : exn) :
  pd.getitem_column df name = Raise e → e = KeyError.
Proof.
  unfold pd.getitem_column.
  destruct (pd.index_of name (pd.columns df)); [done|by intros [= <-]].
Qed.

Section MoreSetup.

Import PowerConsumptionDataModule.

Context {V : Type} (float32 : V → V).
Context {scaler : Type}.
Context (fit : ndarray V → result scaler).
Context (transform : scaler → ndarray V → result (ndarray V)).

Local Abbreviation world := (@PowerConsumptionDataModule.world V scaler).
Local Abbreviation setup := (PowerConsumptionDataModule.setup fit transform).





(** X5: A run past the guards passes on what reading the file raises, with
    the world untouched; and on a table without a "Deaths" column it
    raises [KeyError] after printing the table, with [columns] and the
    arrays untouched. *)
Theorem setup_propagates_errors (stage : option string) (w : world) :
  ¬ cached stage w →
  guards_read w →
  (∀ e, setup (Raise e) stage w = (Raise e, w))
  ∧ (∀ df, pd.index_of "Deaths" (pd.columns df) = None →
       setup (Ok df) stage w
       = (Raise KeyError, World (self w) (stdout w ++ [pd.dropna df]))).
Proof.
  intros Hnc [Htr Hte]. split.
  - intros e.
    destruct (setup (Raise e) stage w) as [r w'] eqn:Hrun.
    apply setup_outcome in Hrun.
    inversion Hrun as [Hc|name Hname Hnone|e' _ Hsrc|df' e' _ Hsrc Hcol'
                       |df' deaths e' _ Hsrc Hcol' Hsplit
                       |df' deaths X_cv X_test y_cv y_test X_train X_val
                          y_train y_val r' w'' _ Hsrc Hcol' H1 H2 Hs];
      subst; try done.
    + destruct Hname as [-> | ->]; rewrite Hnone in *; by destruct Htr, Hte.
    + by injection Hsrc as <-.
  - intros df Hk.
    assert (pd.getitem_column (pd.dropna df) "Deaths" = Raise KeyError)
      as Hcol.
    { unfold pd.getitem_column. simpl. by rewrite Hk. }
    destruct (setup (Ok df) stage w) as [r w'] eqn:Hrun.
    apply setup_outcome in Hrun.
    inversion Hrun as [Hc|name Hname Hnone|e' _ Hsrc|df' e' _ Hsrc Hcol'
                       |df' deaths e' _ Hsrc Hcol' Hsplit
                       |df' deaths X_cv X_test y_cv y_test X_train X_val
                          y_train y_val r' w'' _ Hsrc Hcol' H1 H2 Hs];
      subst; try done.
    + destruct Hname as [-> | ->]; rewrite Hnone in *; by destruct Htr, Hte.
    + injection Hsrc as <-. congruence.
    + injection Hsrc as <-. congruence.
    + injection Hsrc as <-. congruence.
Qed.

(** X6: A call of [setup] that raises has changed neither the test
    arrays nor the configuration.  It has stored no array at all, unless
    it was a call for the fit stage or for no stage in which a transform
    raised after the train arrays were stored: the train arrays are then
    held. *)
Theorem failed_setup_keeps_test_arrays source stage (w w' : world)
    (e : exn) :
  setup source stage w = (Raise e, w') →
  (∀ name, name ∉ ["X_train"; "y_train"; "X_val"; "y_val"] →
     arrays (self w') !! name = arrays (self w) !! name)
  ∧ seq_len (self w') = seq_len (self w)
  ∧ batch_size (self w') = batch_size (self w)
  ∧ num_workers (self w') = num_workers (self w)
  ∧ preprocessing (self w') = preprocessing (self w)
  ∧ (arrays (self w') = arrays (self w)
     ∨ (fit_stage stage
        ∧ ∃ df p train a y,
            source = Ok df
            ∧ fit train = Ok p
            ∧ transform p train = Ok a
            ∧ holds w' "X_train" a
            ∧ holds w' "y_train" y)).
Proof.
  intros Hrun.
  pose proof (setup_configuration fit transform source stage w) as Hconf.
  rewrite Hrun in Hconf. simpl in Hconf.
  destruct Hconf as (? & ? & ? & ?).
  split_and!; try done.
  - apply setup_outcome in Hrun.
    inversion Hrun as [| | | |
                       |? ? ? ? ? ? ? ? ? ? ? ? _ _ _ _ _ Hs]; subst;
      try done.
    apply scaled_kept in Hs as (kept & (_ & Hkeep & _) & _ & Hin).
    intros name Hname. apply Hkeep. intros Hk.
    by apply Hname, (Hin e).
  - apply setup_outcome in Hrun.
    inversion Hrun as [| | | |
                       |df deaths X_cv X_test y_cv y_test X_train X_val
                          y_train y_val r' w'' _ Hsrc _ _ _ Hs]; subst;
      try by left.
    inversion Hs as [e' w1 Hfit Hst|p e' w1 Hfit Hstage Htr Hst
                     |p a e' w1 Hfit Hstage Htr Hv Hst
                     |p kept e' w1 Hfit Hdone Hstage Hte Hst|]; subst.
    + left. apply map_eq. intros name.
      destruct Hst as (_ & Hkeep & _). apply Hkeep. set_unfold. tauto.
    + left. apply map_eq. intros name.
      destruct Hst as (_ & Hkeep & _). apply Hkeep. set_unfold. tauto.
    + right. split; [done|].
      destruct Hst as (Hheld & _).
      exists df, p, X_train, a, (reshape_column y_train).
      split_and!; try done; apply Hheld; listed.
    + destruct Hdone as [(Hf & a & b & Ha & Hb & ->)|(_ & ->)].
      * right. split; [done|].
        destruct Hst as (Hheld & _).
        exists df, p, X_train, a, (reshape_column y_train).
        split_and!; try done; apply Hheld; listed.
      * left. apply map_eq. intros name.
        destruct Hst as (_ & Hkeep & _). apply Hkeep. set_unfold. tauto.
Qed.


End MoreSetup.

(** ** One stage after another *)

Section Stages.

Import PowerConsumptionDataModule.

Context {V : Type} (float32 : V → V).
Context {scaler : Type}.
Context (fit : ndarray V → result scaler).
Context (transform : scaler → ndarray V → result (ndarray V)).

Local Abbreviation world := (@PowerConsumptionDataModule.world V scaler).
Local Abbreviation setup := (PowerConsumptionDataModule.setup fit transform).

(** A first [setup] for no stage that returns: the table had a "Deaths"
    column and three complete rows, the scaler accepted the three parts,
    and the six arrays are stored. *)
Lemma setup_None_returns (df : pd.frame V) (w w' : world) :
  ¬ cached None w →
  setup (Ok df) None w = (Ok (), w') →
  ∃ k X_train X_val X_test y_train y_val y_test p a b c,
    pd.index_of "Deaths" (pd.columns df) = Some k
    ∧ 3 ≤ len (pd.rows (pd.dropna df))
    ∧ split_of df (map (λ r, pd.cell_at r k) (pd.rows (pd.dropna df)))
        X_train X_val X_test y_train y_val y_test
    ∧ fit X_train = Ok p
    ∧ transform p X_train = Ok a
    ∧ transform p X_val = Ok b
    ∧ transform p X_test = Ok c
    ∧ holds w' "X_train" a
    ∧ holds w' "y_train" (reshape_column y_train)
    ∧ holds w' "X_val" b
    ∧ holds w' "y_val" (reshape_column y_val)
    ∧ holds w' "X_test" c
    ∧ holds w' "y_test" (reshape_column y_test)
    ∧ seq_len (self w') = seq_len (self w)
    ∧ batch_size (self w') = batch_size (self w)
    ∧ num_workers (self w') = num_workers (self w)
    ∧ stdout w' = stdout w ++ [pd.dropna df].
Proof.
  intros Hnc Hrun.
  destruct (setup_returns _ _ _ _ _ _ Hrun)
    as [[Hc _]|(_ & df' & deaths & X_train & X_val & X_test & y_train
                & y_val & y_test & p & kept & kept' & Hsrc & Hcol & HN
                & Hsplit & Hfit & Hd & Hd' & Hst)]; [done|].
  injection Hsrc as <-.
  destruct (column_inv df deaths Hcol) as (k & Hk & ->).
  destruct (fit_done_holds transform None _ _ _ _ _ _ _ _ _ _
              (or_intror eq_refl) Hd Hst) as (a & b & ? & ? & ? & ? & ? & ?).
  destruct (test_done_holds transform None _ _ _ _ _ _ _ _
              (or_intror eq_refl) Hd' Hst) as (c & ? & ? & ?).
  destruct Hst as (_ & _ & ? & ? & ? & _ & _ & ?).
  exists k, X_train, X_val, X_test, y_train, y_val, y_test, p, a, b, c.
  split_and!; done.
Qed.

(** The same for the fit stage: the train and validation arrays are
    stored and no other array changes. *)
Lemma setup_fit_returns source (w w' : world) :
  ¬ cached (Some "fit") w →
  setup source (Some "fit") w = (Ok (), w') →
  ∃ df k X_train X_val X_test y_train y_val y_test p a b,
    source = Ok df
    ∧ pd.index_of "Deaths" (pd.columns df) = Some k
    ∧ split_of df (map (λ r, pd.cell_at r k) (pd.rows (pd.dropna df)))
        X_train X_val X_test y_train y_val y_test
    ∧ fit X_train = Ok p
    ∧ transform p X_train = Ok a
    ∧ transform p X_val = Ok b
    ∧ holds w' "X_train" a
    ∧ holds w' "y_train" (reshape_column y_train)
    ∧ holds w' "X_val" b
    ∧ holds w' "y_val" (reshape_column y_val)
    ∧ (∀ name, name ∉ ["X_train"; "y_train"; "X_val"; "y_val"] →
         arrays (self w') !! name = arrays (self w) !! name)
    ∧ stdout w' = stdout w ++ [pd.dropna df].
Proof.
  intros Hnc Hrun.
  pose proof (setup_keeps fit transform source (Some "fit") w) as Hkeep.
  rewrite Hrun in Hkeep. simpl in Hkeep.
  destruct (setup_returns _ _ _ _ _ _ Hrun)
    as [[Hc _]|(_ & df & deaths & X_train & X_val & X_test & y_train
                & y_val & y_test & p & kept & kept' & Hsrc & Hcol & HN
                & Hsplit & Hfit & Hd & Hd' & Hst)]; [done|].
  destruct (column_inv df deaths Hcol) as (k & Hk & ->).
  destruct (fit_done_holds transform (Some "fit") _ _ _ _ _ _ _ _ _ _
              (or_introl eq_refl) Hd Hst) as (a & b & ? & ? & ? & ? & ? & ?).
  destruct Hst as (_ & _ & _ & _ & _ & _ & _ & ?).
  exists df, k, X_train, X_val, X_test, y_train, y_val, y_test, p, a, b.
  split_and!; done.
Qed.

(** And for the test stage: the test arrays are stored and no other
    array changes. *)
Lemma setup_test_returns source (w w' : world) :
  ¬ cached (Some "test") w →
  setup source (Some "test") w = (Ok (), w') →
  ∃ df k X_train X_val X_test y_train y_val y_test p c,
    source = Ok df
    ∧ pd.index_of "Deaths" (pd.columns df) = Some k
    ∧ split_of df (map (λ r, pd.cell_at r k) (pd.rows (pd.dropna df)))
        X_train X_val X_test y_train y_val y_test
    ∧ fit X_train = Ok p
    ∧ transform p X_test = Ok c
    ∧ holds w' "X_test" c
    ∧ holds w' "y_test" (reshape_column y_test)
    ∧ (∀ name, name ∉ ["X_test"; "y_test"] →
         arrays (self w') !! name = arrays (self w) !! name)
    ∧ stdout w' = stdout w ++ [pd.dropna df].
Proof.
  intros Hnc Hrun.
  pose proof (setup_keeps fit transform source (Some "test") w) as Hkeep.
  rewrite Hrun in Hkeep. simpl in Hkeep.
  destruct (setup_returns _ _ _ _ _ _ Hrun)
    as [[Hc _]|(_ & df & deaths & X_train & X_val & X_test & y_train
                & y_val & y_test & p & kept & kept' & Hsrc & Hcol & HN
                & Hsplit & Hfit & Hd & Hd' & Hst)]; [done|].
  destruct (column_inv df deaths Hcol) as (k & Hk & ->).
  destruct (test_done_holds transform (Some "test") _ _ _ _ _ _ _ _
              (or_introl eq_refl) Hd' Hst) as (c & ? & ? & ?).
  destruct Hst as (_ & _ & _ & _ & _ & _ & _ & ?).
  exists df, k, X_train, X_val, X_test, y_train, y_val, y_test, p, c.
  split_and!; done.
Qed.

(** X8: A call of [setup] changes no array outside its stage, however it
    ends.  The first [setup] for 'fit' that returns has stored the train
    and validation arrays and left [X_test] and [y_test] as they were; the
    first one for 'test' that returns has stored the test arrays and left
    the other four as they were. *)
Theorem setup_stores_only_its_stage :
  (∀ source stage (w : world) name,
     name ∉ assigned stage →
     arrays (self (setup source stage w).2) !! name
     = arrays (self w) !! name)
  ∧ (∀ source (w w' : world),
       ¬ cached (Some "fit") w →
       setup source (Some "fit") w = (Ok (), w') →
       (∃ a b c d,
          holds w' "X_train" a ∧ holds w' "y_train" b
          ∧ holds w' "X_val" c ∧ holds w' "y_val" d)
       ∧ arrays (self w') !! "X_test" = arrays (self w) !! "X_test"
       ∧ arrays (self w') !! "y_test" = arrays (self w) !! "y_test")
  ∧ (∀ source (w w' : world),
       ¬ cached (Some "test") w →
       setup source (Some "test") w = (Ok (), w') →
       (∃ a b, holds w' "X_test" a ∧ holds w' "y_test" b)
       ∧ arrays (self w') !! "X_train" = arrays (self w) !! "X_train"
       ∧ arrays (self w') !! "y_train" = arrays (self w) !! "y_train"
       ∧ arrays (self w') !! "X_val" = arrays (self w) !! "X_val"
       ∧ arrays (self w') !! "y_val" = arrays (self w) !! "y_val").
Proof.
  split_and!.
  - intros source stage w name. apply setup_keeps.
  - intros source w w' Hnc Hrun.
    destruct (setup_fit_returns source w w' Hnc Hrun)
      as (df & k & X_train & X_val & X_test & y_train & y_val & y_test & p
          & a & b & _ & _ & _ & _ & _ & _ & ? & ? & ? & ? & Hkeep & _).
    split_and!; [eauto 10|apply Hkeep..]; set_unfold; intuition congruence.
  - intros source w w' Hnc Hrun.
    destruct (setup_test_returns source w w' Hnc Hrun)
      as (df & k & X_train & X_val & X_test & y_train & y_val & y_test & p
          & c & _ & _ & _ & _ & _ & ? & ? & Hkeep & _).
    split_and!; [eauto|apply Hkeep..]; set_unfold; intuition congruence.
Qed.



(** X11: [setup] for no stage after 'fit' alone is not cached: it runs again
    on the table it reads and, when it returns, has replaced the train and
    validation arrays by those of that table, having printed both
    tables. *)
Theorem None_after_fit_runs_again (df1 df2 : pd.frame V) (w w1 w2 : world) :
  holds_None w "X_train" →
  holds_None w "X_test" →
  setup (Ok df1) (Some "fit") w = (Ok (), w1) →
  setup (Ok df2) None w1 = (Ok (), w2) →
  ¬ cached None w1
  ∧ ∃ train2 val2 test2 p a b c,
      pd.rows (pd.dropna df2) = train2 ++ val2 ++ test2
      ∧ fit train2 = Ok p
      ∧ transform p train2 = Ok a
      ∧ transform p val2 = Ok b
      ∧ transform p test2 = Ok c
      ∧ holds w2 "X_train" a
      ∧ holds w2 "X_val" b
      ∧ holds w2 "X_test" c
      ∧ stdout w2 = stdout w ++ [pd.dropna df1; pd.dropna df2].
Proof.
  intros Htr Hte Hrun1 Hrun2.
  destruct (setup_fit_returns (Ok df1) w w1)
    as (df1' & k1 & train1 & val1 & test1 & y_train1 & y_val1 & y_test1
        & p1 & a1 & b1 & Hsrc1 & _ & _ & _ & _ & _ & _ & _ & _ & _ & Hkeep1
        & Hout1); [by apply holds_None_uncached|done|].
  injection Hsrc1 as <-.
  assert (holds_None w1 "X_test") as Hte1.
  { unfold holds_None. rewrite Hkeep1; [done|].
    set_unfold. intuition congruence. }
  assert (¬ cached None w1) as Hnc1.
  { unfold holds_None in Hte1. not_cached. }
  split; [done|].
  destruct (setup_None_returns df2 w1 w2 Hnc1 Hrun2)
    as (k2 & train2 & val2 & test2 & y_train2 & y_val2 & y_test2 & p & a
        & b & c & _ & _ & Hsplit2 & ? & ? & ? & ? & ? & _ & ? & _ & ? & _
        & _ & _ & _ & Hout2).
  exists train2, val2, test2, p, a, b, c.
  split_and!; try done; [by destruct Hsplit2 as (? & _)|].
  by rewrite Hout2, Hout1, <- (assoc_L (++)).
Qed.

End Stages.

(** ** Whole lifecycles *)

Lemma length_reshape_column {V} (s : list (cell V)) :
  length (reshape_column s) = length s.
Proof. apply length_map. Qed.

Section Lifecycles.

Import PowerConsumptionDataModule.

Context {V : Type} (float32 : V → V).
Context {scaler : Type}.
Context (fit : ndarray V → result scaler).
Context (transform : scaler → ndarray V → result (ndarray V)).

Local Abbreviation world := (@PowerConsumptionDataModule.world V scaler).
Local Abbreviation setup := (PowerConsumptionDataModule.setup fit transform).
Local Abbreviation float := (TimeseriesDataset.float float32).

Lemma paired_kept_same (w w' : world) (name_X name_y : string) unset
    (kept : list (string * ndarray V)) (X : pd.frame V) :
  stored_as kept X w w' →
  name_X ∉ kept.*1 →
  name_y ∉ kept.*1 →
  paired w name_X name_y unset →
  paired w' name_X name_y unset.
Proof.
  intros (_ & Hkeep & _) HX Hy. unfold paired, holds, holds_None.
  by rewrite !Hkeep.
Qed.

Lemma paired_kept_new (w w' : world) (name_X name_y : string) unset
    (kept : list (string * ndarray V)) (X : pd.frame V) (a b : ndarray V) :
  stored_as kept X w w' →
  (name_X, a) ∈ kept →
  (name_y, b) ∈ kept →
  length a = length b →
  paired w' name_X name_y unset.
Proof.
  intros (Hheld & _) HX Hy Hlen. right. exists a, b.
  split_and!; [by apply Hheld..|done].
Qed.

(** The pair of attributes is among the arrays stored, or is not. *)
Ltac pair_kept Hst Hlen :=
  first
    [ eapply paired_kept_same;
      [exact Hst|simpl; set_unfold; intuition congruence..|done]
    | eapply paired_kept_new;
      [exact Hst|listed|listed|];
      erewrite Hlen by done; rewrite length_reshape_column;
      unfold len in *; lia ].

(** The three pairs of a world. *)
Lemma setup_paired source stage (w : world) :
  (∀ p a b, transform p a = Ok b → length b = length a) →
  paired w "X_train" "y_train" (Some None)
  ∧ paired w "X_val" "y_val" (Some None)
  ∧ paired w "X_test" "y_test" None →
  paired (setup source stage w).2 "X_train" "y_train" (Some None)
  ∧ paired (setup source stage w).2 "X_val" "y_val" (Some None)
  ∧ paired (setup source stage w).2 "X_test" "y_test" None.
Proof.
  intros Hlen (Hptr & Hpv & Hpte).
  destruct (setup source stage w) as [r w'] eqn:Hrun. simpl.
  apply setup_outcome in Hrun.
  inversion Hrun as [| | | |
                     |df deaths X_cv X_test y_cv y_test X_train X_val
                        y_train y_val r' w'' _ Hsrc Hcol H1 H2 Hs]; subst;
    try done.
  pose proof (chronological_split_inv _ _ _ _ _ _ _ _ _ _ H1 H2)
    as (_ & _ & _ & _ & _ & _ & Hytr & Hyv & Hyte).
  inversion Hs as [e w1 Hfit Hst|p e w1 Hfit Hstage Htr Hst
                   |p a e w1 Hfit Hstage Htr Hv Hst
                   |p kept e w1 Hfit Hdone Hstage Hte Hst
                   |p kept kept' w1 Hfit Hdone Hdone' Hst]; subst.
  - split_and!; pair_kept Hst Hlen.
  - split_and!; pair_kept Hst Hlen.
  - split_and!; pair_kept Hst Hlen.
  - destruct Hdone as [(_ & a & b & Ha & Hb & ->)|(_ & ->)];
      split_and!; pair_kept Hst Hlen.
  - destruct Hdone as [(_ & a & b & Ha & Hb & ->)|(_ & ->)];
      destruct Hdone' as [(_ & c & Hc & ->)|(_ & ->)];
      split_and!; pair_kept Hst Hlen.
Qed.

Lemma lifecycle_paired (w : world) :
  (∀ p a b, transform p a = Ok b → length b = length a) →
  lifecycle float32 fit transform w →
  paired w "X_train" "y_train" (Some None)
  ∧ paired w "X_val" "y_val" (Some None)
  ∧ paired w "X_test" "y_test" None.
Proof.
  intros Hlen Hw.
  induction Hw as [s b n|w Hw IH|source stage w Hw IH
                   |w Hw IH|w Hw IH|w Hw IH].
  - split_and!; by left.
  - done.
  - by apply setup_paired.
  - by rewrite train_dataloader_world.
  - by rewrite val_dataloader_world.
  - by rewrite test_dataloader_world.
Qed.

(** What a dataloader returns over two stored arrays of the same,
    representable, number of rows. *)
Lemma loader_of_held (X y : ndarray V)
    (o : instance (V := V) (scaler := scaler)) :
  length X = length y →
  len X ≤ int64_max →
  loader_of float32 (Some (Some X)) (Some (Some y)) o
  = if (num_workers o <? 0) || (batch_size o <=? 0)
    then Raise ValueError
    else Ok (mkDataLoader
               (TimeseriesDataset.mk (float X) (float y) (seq_len o))
               (batch_size o) false (num_workers o)).
Proof.
  intros Hsame Hmax.
  assert (len y ≤ int64_max) as Hmax' by (unfold len in *; lia).
  unfold loader_of, TimeseriesDataset.__init__, torch_tensor,
    DataLoader_init.
  rewrite (proj2 (Z.leb_le _ _) Hmax), (proj2 (Z.leb_le _ _) Hmax'). simpl.
  destruct (num_workers o <? 0); [done|].
  by destruct (batch_size o <=? 0).
Qed.

(** X12: No call changes the configuration: [seq_len], [batch_size] and
    [num_workers] are as the constructor set them, the dataloaders and
    [prepare_data] leave the whole world as it is, and the fitted scaler is
    never kept, [preprocessing] being [None] in every world of a
    lifecycle. *)
Theorem lifecycle_keeps_configuration :
  (∀ source stage (w : world),
     seq_len (self (setup source stage w).2) = seq_len (self w)
     ∧ batch_size (self (setup source stage w).2) = batch_size (self w)
     ∧ num_workers (self (setup source stage w).2) = num_workers (self w))
  ∧ (∀ w : world,
       (train_dataloader float32 w).2 = w
       ∧ (val_dataloader float32 w).2 = w
       ∧ (test_dataloader float32 w).2 = w
       ∧ prepare_data w = (Ok (), w))
  ∧ (∀ w : world,
       lifecycle float32 fit transform w → preprocessing (self w) = None).
Proof.
  split_and!.
  - intros source stage w.
    by destruct (setup_configuration fit transform source stage w)
      as (? & ? & ? & _).
  - intros w. split_and!; [apply train_dataloader_world
                          |apply val_dataloader_world
                          |apply test_dataloader_world|done].
  - intros w Hw.
    induction Hw as [s b n|w Hw IH|source stage w Hw IH
                     |w Hw IH|w Hw IH|w Hw IH].
    + done.
    + done.
    + by destruct (setup_configuration fit transform source stage w)
        as (_ & _ & _ & ->).
    + by rewrite train_dataloader_world.
    + by rewrite val_dataloader_world.
    + by rewrite test_dataloader_world.
Qed.

(** X13: With a scaler whose transform keeps the row count, in every world
    of a lifecycle the feature and target arrays of each split go
    together: both are as the constructor left them, or both are stored
    and have the same number of rows; this holds split by split, also
    after a call of [setup] that raised between two stores.  The guards of
    [setup] find their attributes, so [setup] raises [AttributeError] only
    if reading the source or the scaler does. *)
Theorem lifecycle_pairs_arrays (w : world) :
  (∀ p a b, transform p a = Ok b → length b = length a) →
  lifecycle float32 fit transform w →
  paired w "X_train" "y_train" (Some None)
  ∧ paired w "X_val" "y_val" (Some None)
  ∧ paired w "X_test" "y_test" None
  ∧ guards_read w
  ∧ ∀ source stage,
      (setup source stage w).1 = Raise AttributeError →
      source = Raise AttributeError
      ∨ (∃ a, fit a = Raise AttributeError)
      ∨ (∃ p a, transform p a = Raise AttributeError).
Proof.
  intros Hlen Hw.
  destruct (lifecycle_paired w Hlen Hw) as (Hptr & Hpv & Hpte).
  assert (guards_read w) as Hread.
  { unfold guards_read.
    destruct Hptr as [(-> & _)|(? & ? & -> & _)];
      destruct Hpte as [(-> & _)|(? & ? & -> & _)]; eauto. }
  split_and!; try done.
  intros source stage Hraise.
  destruct (setup source stage w) as [r w'] eqn:Hrun. simpl in Hraise.
  subst r. apply setup_outcome in Hrun. destruct Hread as [Htr Hte].
  inversion Hrun as [|name Hname Hnone|e _ Hsrc|df e _ Hsrc Hcol
                     |df deaths e _ Hsrc Hcol Hsplit
                     |df deaths X_cv X_test y_cv y_test X_train X_val
                        y_train y_val r' w'' _ Hsrc Hcol H1 H2 Hs]; subst.
  - destruct Hname as [-> | ->]; rewrite Hnone in *; by destruct Htr, Hte.
  - by left.
  - by apply getitem_column_raises in Hcol.
  - by apply split_raises_ValueError in Hsplit.
  - right.
    inversion Hs as [e w1 Hfit Hst|p e w1 Hfit Hstage Htr' Hst
                     |p a e w1 Hfit Hstage Htr' Hv Hst
                     |p kept e w1 Hfit Hdone Hstage Hte' Hst|]; subst; eauto.
Qed.

(** X14: With a scaler whose transform keeps the row count, a dataloader
    requested at any point of a lifecycle fails for want of data and
    leaves the world as it is, or finds two stored arrays with the same
    number of rows; over them, it refuses a negative [num_workers] and a
    [batch_size] that is not positive with [ValueError], and otherwise
    returns an unshuffled loader with the instance's [batch_size] and
    [num_workers] over a dataset with the instance's [seq_len] whose
    features and targets are the stored arrays. *)
Theorem dataloader_fails_or_pairs (w : world) :
  (∀ p a b, transform p a = Ok b → length b = length a) →
  lifecycle float32 fit transform w →
  let built X y :=
    if (num_workers (self w) <? 0) || (batch_size (self w) <=? 0)
    then Raise ValueError
    else Ok (mkDataLoader
               (TimeseriesDataset.mk (float X) (float y) (seq_len (self w)))
               (batch_size (self w)) false (num_workers (self w))) in
  (train_dataloader float32 w = (Raise RuntimeError, w)
   ∨ ∃ X y, holds w "X_train" X ∧ holds w "y_train" y
            ∧ length (float X) = length (float y)
            ∧ (len X ≤ int64_max →
               train_dataloader float32 w = (built X y, w)))
  ∧ (val_dataloader float32 w = (Raise RuntimeError, w)
     ∨ ∃ X y, holds w "X_val" X ∧ holds w "y_val" y
              ∧ length (float X) = length (float y)
              ∧ (len X ≤ int64_max →
                 val_dataloader float32 w = (built X y, w)))
  ∧ (test_dataloader float32 w = (Raise AttributeError, w)
     ∨ ∃ X y, holds w "X_test" X ∧ holds w "y_test" y
              ∧ length (float X) = length (float y)
              ∧ (len X ≤ int64_max →
                 test_dataloader float32 w = (built X y, w))).
Proof.
  intros Hlen Hw built.
  destruct (lifecycle_paired w Hlen Hw) as (Hptr & Hpv & Hpte).
  assert (∀ a : ndarray V, length (float a) = length a) as Hfl.
  { intros a. unfold TimeseriesDataset.float. apply length_map. }
  split_and!.
  - destruct Hptr as [(HX & Hy)|(a & b & HX & Hy & Hab)].
    + left. by apply train_dataloader_raises.
    + right. exists a, b. split_and!; try done; [by rewrite !Hfl|].
      intros Hmax. unfold holds in *.
      rewrite train_dataloader_reads, HX, Hy.
      by rewrite loader_of_held.
  - destruct Hpv as [(HX & Hy)|(a & b & HX & Hy & Hab)].
    + left. by apply val_dataloader_raises.
    + right. exists a, b. split_and!; try done; [by rewrite !Hfl|].
      intros Hmax. unfold holds in *.
      rewrite val_dataloader_reads, HX, Hy.
      by rewrite loader_of_held.
  - destruct Hpte as [(HX & Hy)|(a & b & HX & Hy & Hab)].
    + left. by apply test_dataloader_raises.
    + right. exists a, b. split_and!; try done; [by rewrite !Hfl|].
      intros Hmax. unfold holds in *.
      rewrite test_dataloader_reads, HX, Hy.
      by rewrite loader_of_held.
Qed.

End Lifecycles.

(** ** From the table to the windows *)

Section EndToEnd.

Import PowerConsumptionDataModule.

Context {V : Type} (float32 : V → V).
Context {scaler : Type}.
Context (fit : ndarray V → result scaler).
Context (transform : scaler → ndarray V → result (ndarray V)).

Local Abbreviation world := (@PowerConsumptionDataModule.world V scaler).
Local Abbreviation setup := (PowerConsumptionDataModule.setup fit transform).
Local Abbreviation float := (TimeseriesDataset.float float32).
Local Abbreviation float_cell := (TimeseriesDataset.float_cell float32).

Lemma float_reshape_lookup (s : list (cell V)) (j : nat) (c : cell V) :
  s !! j = Some c → float (reshape_column s) !! j = Some [float_cell c].
Proof.
  intros Hc. unfold TimeseriesDataset.float, reshape_column.
  by rewrite !list_lookup_fmap, Hc.
Qed.

(** X15: From the table to the training windows.  After a first [setup]
    for no stage that returned, with a scaler whose transform keeps the
    row count, a positive [seq_len] and a configuration that the loader
    accepts, the train dataloader is returned, its dataset has
    [|train| - seq_len + 1] windows, and window [i], the transformed train
    rows [i .. i+seq_len-1], is paired with the deaths value of row
    [i+seq_len] of the cleaned table, the row after the window. *)
Theorem window_target_is_next_deaths (df : pd.frame V) (w w' : world) :
  (∀ p a b, transform p a = Ok b → length b = length a) →
  ¬ cached None w →
  setup (Ok df) None w = (Ok (), w') →
  0 < seq_len (self w) →
  0 < batch_size (self w) →
  0 ≤ num_workers (self w) →
  len (pd.rows (pd.dropna df)) ≤ int64_max →
  ∃ k dl train val test p a,
    pd.index_of "Deaths" (pd.columns df) = Some k
    ∧ pd.rows (pd.dropna df) = train ++ val ++ test
    ∧ fit train = Ok p
    ∧ transform p train = Ok a
    ∧ train_dataloader float32 w' = (Ok dl, w')
    ∧ TimeseriesDataset.__len__ (dataset dl)
      = Ok (len train - seq_len (self w) + 1)
    ∧ ∀ i, 0 ≤ i < len train - seq_len (self w) + 1 →
        ∃ r, pd.rows (pd.dropna df) !! Z.to_nat (i + seq_len (self w))
             = Some r
             ∧ TimeseriesDataset.__getitem__ (dataset dl) i
               = Ok (take (Z.to_nat (seq_len (self w)))
                       (drop (Z.to_nat i) (float a)),
                     [float_cell (pd.cell_at r k)]).
Proof.
  intros Hlen Hnc Hrun Hs Hb Hn Hmax.
  destruct (setup_None_returns fit transform df w w' Hnc Hrun)
    as (k & train & val & test & y_train & y_val & y_test & p & a & b & c
        & Hk & HN & Hsplit & Hfit & Ha & _ & _ & HX & Hy & _ & _ & _ & _
        & Hseq & Hbatch & Hworkers & _).
  destruct Hsplit as (Hrows & Htarget & Hlt & Hlv & Hltr & Hpos & Hytr & _).
  destruct (split_sizes_positive _ _ _ HN Hlt Hlv) as (Ht1 & Hv1 & _).
  pose proof (len_nonneg test) as Htest0.
  pose proof (len_nonneg val) as Hval0.
  set (s := seq_len (self w)) in *.
  assert (length a = length train) as Hla by by apply (Hlen p).
  assert (len (float a) = len train) as HlX.
  { rewrite len_float. unfold len. by rewrite Hla. }
  assert (len (float (reshape_column y_train)) = len train) as Hly.
  { rewrite len_float. unfold len in *.
    rewrite length_reshape_column. lia. }
  exists k,
    (mkDataLoader
       (TimeseriesDataset.mk (float a) (float (reshape_column y_train)) s)
       (batch_size (self w)) false (num_workers (self w))),
    train, val, test, p, a.
  split_and!; try done.
  - unfold holds in *.
    rewrite train_dataloader_reads, HX, Hy, loader_of_held.
    + rewrite Hseq, Hbatch, Hworkers. by decide_compare.
    + rewrite Hla, length_reshape_column. unfold len in *. lia.
    + unfold len in *. lia.
  - unfold TimeseriesDataset.__len__. simpl. rewrite HlX. f_equal. lia.
  - intros i Hi.
    destruct (lookup_lt_is_Some_2 (pd.rows (pd.dropna df)) (Z.to_nat (i + s)))
      as [r Hr].
    { unfold len in *. lia. }
    exists r. split; [done|].
    assert (y_train !! Z.to_nat (i + s - 1) = Some (pd.cell_at r k)) as Hc.
    { rewrite <- (lookup_app_l _ (y_val ++ y_test))
        by (unfold len in *; lia).
      rewrite <- Htarget. apply target_at; [done|].
      rewrite <- Hr. f_equal. lia. }
    apply float_reshape_lookup in Hc.
    destruct (item_inside (float (reshape_column y_train)) (i + s - 1))
      as (x & Hx & Hitem); [lia..|].
    unfold TimeseriesDataset.__getitem__. simpl. rewrite Hitem. simpl.
    rewrite slice_inside by lia.
    replace (i + s - i) with s by lia.
    rewrite Hc in Hx. by injection Hx as <-.
Qed.

(** X16: The targets stored by a first [setup] for no stage that returned
    have no missing value: the gap that the shift leaves at the end is
    filled. *)
Theorem stored_targets_complete (df : pd.frame V) (w w' : world) :
  ¬ cached None w →
  setup (Ok df) None w = (Ok (), w') →
  ∃ y_train y_val y_test,
    holds w' "y_train" (reshape_column y_train)
    ∧ holds w' "y_val" (reshape_column y_val)
    ∧ holds w' "y_test" (reshape_column y_test)
    ∧ length (y_train ++ y_val ++ y_test) = length (pd.rows (pd.dropna df))
    ∧ Forall (λ c, isna c = false) (y_train ++ y_val ++ y_test).
Proof.
  intros Hnc Hrun.
  destruct (setup_None_returns fit transform df w w' Hnc Hrun)
    as (k & train & val & test & y_train & y_val & y_test & p & a & b & c
        & Hk & HN & Hsplit & _ & _ & _ & _ & _ & ? & _ & ? & _ & ? & _).
  destruct Hsplit as (_ & Htarget & _).
  exists y_train, y_val, y_test. split_and!; try done.
  - by rewrite <- Htarget, length_target, length_map.
  - rewrite <- Htarget. apply target_complete; [by apply deaths_complete|].
    rewrite length_map. unfold len in HN. lia.
Qed.


(** X18: No row is imputed or moved: the rows of the three parts that a
    first [setup] for no stage that returned has transformed and stored
    are, in their order, rows of the table read, each without a missing
    value under any column. *)
Theorem splits_keep_complete_rows (df : pd.frame V) (w w' : world) :
  ¬ cached None w →
  setup (Ok df) None w = (Ok (), w') →
  ∃ train val test p a b c,
    fit train = Ok p
    ∧ transform p train = Ok a
    ∧ transform p val = Ok b
    ∧ transform p test = Ok c
    ∧ holds w' "X_train" a
    ∧ holds w' "X_val" b
    ∧ holds w' "X_test" c
    ∧ (train ++ val ++ test) `sublist_of` pd.rows df
    ∧ ∀ r j, r ∈ train ++ val ++ test →
             (j < length (pd.columns df))%nat →
             isna (pd.cell_at r j) = false.
Proof.
  intros Hnc Hrun.
  destruct (setup_None_returns fit transform df w w' Hnc Hrun)
    as (k & train & val & test & y_train & y_val & y_test & p & a & b & c
        & Hk & HN & Hsplit & ? & ? & ? & ? & ? & _ & ? & _ & ? & _).
  destruct Hsplit as (Hrows & _).
  exists train, val, test, p, a, b, c. split_and!; try done.
  - rewrite <- Hrows. apply filter_sublist.
  - intros r j Hr Hj. rewrite <- Hrows in Hr. simpl in Hr.
    apply list_elem_of_In, filter_In in Hr as [_ Hr].
    by apply complete_cell with (length (pd.columns df)).
Qed.

(** X19: The stores of [setup] are not all-or-nothing.  When, in a first
    [setup] for 'fit', the scaler transforms the train rows and then
    raises on the validation rows, the call raises with the train arrays
    stored and the validation attributes still [None].  From then on the
    train data counts as present: [setup] for 'fit' returns at once
    whatever the source, the validation dataloader keeps raising
    [RuntimeError], and the train dataloader returns a loader when the
    configuration allows it. *)
Theorem failed_transform_leaves_train_only (df : pd.frame V) (w : world)
    (k : nat) :
  holds_None w "X_train" →
  holds_None w "X_val" →
  holds_None w "y_val" →
  holds_None w "X_test" →
  pd.index_of "Deaths" (pd.columns df) = Some k →
  3 ≤ len (pd.rows (pd.dropna df)) →
  ∃ train val test y_train,
    pd.rows (pd.dropna df) = train ++ val ++ test
    ∧ len test = Qceiling (0.10 * inject_Z (len (pd.rows (pd.dropna df))))
    ∧ len val
      = Qceiling (0.05 * inject_Z (len (pd.rows (pd.dropna df)) - len test))
    ∧ len train = len (pd.rows (pd.dropna df)) - len test - len val
    ∧ ∀ p a e,
        fit train = Ok p →
        transform p train = Ok a →
        transform p val = Raise e →
        ∃ w',
          setup (Ok df) (Some "fit") w = (Raise e, w')
          ∧ holds w' "X_train" a
          ∧ holds w' "y_train" (reshape_column y_train)
          ∧ holds_None w' "X_val"
          ∧ holds_None w' "y_val"
          ∧ (∀ source, setup source (Some "fit") w' = (Ok (), w'))
          ∧ val_dataloader float32 w' = (Raise RuntimeError, w')
          ∧ (length a = length train →
             len train ≤ int64_max →
             0 < batch_size (self w) →
             0 ≤ num_workers (self w) →
             ∃ dl, train_dataloader float32 w' = (Ok dl, w')).
Proof.
  intros Htr Hv Hyv Hte Hk HN.
  destruct (setup_splits fit transform df (Some "fit") w k)
    as (train & val & test & y_train & y_val & y_test & Hsplit & Hrun);
    [by apply holds_None_uncached|by apply holds_None_guards_read|done..|].
  destruct Hsplit as (Hrows & _ & Hlt & Hlv & Hltr & _ & Hytr & _).
  exists train, val, test, y_train. split_and!; try done.
  intros p a e Hfit Ha Hraise.
  destruct (setup (Ok df) (Some "fit") w) as [r w'] eqn:E.
  specialize (Hrun r w' eq_refl).
  inversion Hrun as [e' w1 Hfit' Hst|p' e' w1 Hfit' Hstage Htr' Hst
                     |p' a' e' w1 Hfit' Hstage Htr' Hv' Hst
                     |p' kept e' w1 Hfit' Hdone Hstage Hte' Hst
                     |p' kept kept' w1 Hfit' Hdone Hdone' Hst]; subst;
    try congruence.
  - assert (p' = p) as -> by congruence.
    assert (a' = a) as -> by congruence.
    assert (e' = e) as -> by congruence.
    destruct Hst as (Hheld & Hkeep & Hseq & Hbatch & Hworkers & _).
    assert (holds w' "X_train" a) as HXtr by (apply Hheld; listed).
    assert (holds w' "y_train" (reshape_column y_train)) as Hytr'
      by (apply Hheld; listed).
    assert (holds_None w' "X_val") as HXv.
    { unfold holds_None. rewrite Hkeep; [done|].
      simpl. set_unfold. intuition congruence. }
    assert (holds_None w' "y_val") as Hyv'.
    { unfold holds_None. rewrite Hkeep; [done|].
      simpl. set_unfold. intuition congruence. }
    exists w'. split_and!; try done.
    + intros source. apply setup_cached. left. eauto.
    + by apply val_dataloader_raises.
    + intros Hla Hmax Hb Hn. eexists.
      unfold holds in *.
      rewrite train_dataloader_reads, HXtr, Hytr', loader_of_held.
      * rewrite Hbatch, Hworkers. by decide_compare.
      * rewrite Hla, length_reshape_column. unfold len in *. lia.
      * unfold len in *. lia.
  - by destruct Hstage as [|].
  - destruct Hdone as [(_ & a' & b & Ha' & Hb & _)|[Hnf _]].
    + assert (p' = p) as -> by congruence. congruence.
    + destruct Hnf. by left.
Qed.

End EndToEnd.

(** ** The further properties on the sample tables *)

Lemma transform0_length (p : Z) (a b : ndarray Z) :
  transform0 p a = Ok b → length b = length a.
Proof. by intros [= <-]. Qed.


Lemma setup_propagates_errors_witness :
  PowerConsumptionDataModule.setup fit0 transform0 (Ok no_deaths_table)
    (Some "fit") world0
  = (Raise KeyError,
     PowerConsumptionDataModule.World
       (PowerConsumptionDataModule.self world0) [no_deaths_table]).
Proof.
  destruct (setup_propagates_errors fit0 transform0 (Some "fit") world0)
    as [_ Hkey]; [apply world0_uncached | apply world0_guards_read |].
  apply (Hkey no_deaths_table). reflexivity.
Defined.

Lemma failed_setup_keeps_test_arrays_witness :
  let w' := (PowerConsumptionDataModule.setup fit0 transform1
               (Ok deaths_table) None world0).2 in
  PowerConsumptionDataModule.arrays (PowerConsumptionDataModule.self w')
    !! "X_test"
  = Some None.
Proof.
  intros w'.
  destruct (failed_setup_keeps_test_arrays fit0 transform1 (Ok deaths_table)
              None world0 w' ValueError eq_refl) as (Hkeep & _).
  rewrite Hkeep; [reflexivity|].
  set_unfold. intuition congruence.
Defined.


Lemma setup_stores_only_its_stage_witness :
  let w' := (PowerConsumptionDataModule.setup fit0 transform0
               (Ok deaths_table) (Some "fit") world0).2 in
  (∃ a, holds w' "X_train" a) ∧ holds_None w' "X_test".
Proof.
  intros w'.
  destruct (setup_stores_only_its_stage fit0 transform0) as (_ & Hfit & _).
  destruct (Hfit (Ok deaths_table) world0 w'
              (world0_uncached (Some "fit")) eq_refl)
    as ((a & b & c & d & Ha & _) & Htest & _).
  split; [by exists a|]. unfold holds_None. by rewrite Htest.
Defined.



Lemma None_after_fit_runs_again_witness :
  let w1 := (PowerConsumptionDataModule.setup fit0 transform0
               (Ok deaths_table) (Some "fit") world0).2 in
  let w2 := (PowerConsumptionDataModule.setup fit0 transform0
               (Ok later_table) None w1).2 in
  PowerConsumptionDataModule.stdout w2
  = [pd.dropna deaths_table; pd.dropna later_table].
Proof.
  intros w1 w2.
  destruct (None_after_fit_runs_again fit0 transform0 deaths_table
              later_table world0 w1 w2)
    as (_ & ? & ? & ? & ? & ? & ? & ? & _ & _ & _ & _ & _ & _ & _ & _
        & Hout);
    [reflexivity | reflexivity | reflexivity | reflexivity |].
  exact Hout.
Defined.

Lemma lifecycle_keeps_configuration_witness :
  PowerConsumptionDataModule.preprocessing
    (PowerConsumptionDataModule.self
       (PowerConsumptionDataModule.setup fit0 transform0 (Ok deaths_table)
          None world0).2)
  = None.
Proof.
  destruct (lifecycle_keeps_configuration id fit0 transform0)
    as (_ & _ & Hnone).
  apply Hnone. apply lifecycle_setup, lifecycle_new.
Defined.

Lemma lifecycle_pairs_arrays_witness :
  paired
    (PowerConsumptionDataModule.setup fit0 transform1 (Ok deaths_table)
       None world0).2 "X_val" "y_val" (Some None).
Proof.
  destruct (lifecycle_pairs_arrays id fit0 transform1
              (PowerConsumptionDataModule.setup fit0 transform1
                 (Ok deaths_table) None world0).2) as (_ & Hpv & _);
    [|apply lifecycle_setup, lifecycle_new|exact Hpv].
  intros p a b. unfold transform1.
  destruct (len a =? 1); [discriminate|]. by intros [= <-].
Defined.

Lemma dataloader_fails_or_pairs_witness :
  let w1 := (PowerConsumptionDataModule.setup fit0 transform0
               (Ok deaths_table) None world0).2 in
  ∃ dl, PowerConsumptionDataModule.train_dataloader id w1 = (Ok dl, w1).
Proof.
  intros w1.
  destruct (dataloader_fails_or_pairs id fit0 transform0 w1)
    as (Htrain & _ & _);
    [apply transform0_length | apply lifecycle_setup, lifecycle_new |].
  destruct Htrain as [Hraise|(X & y & HX & _ & _ & Hbuilt)].
  - discriminate Hraise.
  - injection HX as <-. eexists. rewrite Hbuilt; [reflexivity|].
    by vm_compute.
Defined.

Lemma window_target_is_next_deaths_witness :
  let w' := (PowerConsumptionDataModule.setup fit0 transform0
               (Ok deaths_table) None world0).2 in
  ∃ dl,
    PowerConsumptionDataModule.train_dataloader id w' = (Ok dl, w')
    ∧ TimeseriesDataset.__getitem__
        (PowerConsumptionDataModule.dataset dl) 0
      = Ok ([[Num 100; Num 10]], [Num 12]).
Proof.
  intros w'.
  destruct (window_target_is_next_deaths id fit0 transform0 deaths_table
              world0 w')
    as (k & dl & train & val & test & p & a & _ & _ & _ & _ & Hdl & _);
    [apply transform0_length | apply world0_uncached | reflexivity
    | by vm_compute | by vm_compute | by vm_compute | by vm_compute |].
  exists dl. split; [exact Hdl|].
  injection Hdl as <-. reflexivity.
Defined.

Lemma stored_targets_complete_witness :
  let w' := (PowerConsumptionDataModule.setup fit0 transform0
               (Ok deaths_table) None world0).2 in
  ∃ y_train y_val y_test,
    holds w' "y_train" (reshape_column y_train)
    ∧ Forall (λ c, isna c = false) (y_train ++ y_val ++ y_test).
Proof.
  intros w'.
  destruct (stored_targets_complete fit0 transform0 deaths_table world0 w')
    as (y_train & y_val & y_test & Hy & _ & _ & _ & Hall);
    [apply world0_uncached | reflexivity |].
  by exists y_train, y_val, y_test.
Defined.


Lemma splits_keep_complete_rows_witness :
  ∃ train val test,
    (train ++ val ++ test) `sublist_of` pd.rows deaths_table.
Proof.
  destruct (splits_keep_complete_rows fit0 transform0 deaths_table world0
              (PowerConsumptionDataModule.setup fit0 transform0
                 (Ok deaths_table) None world0).2)
    as (train & val & test & p & a & b & c & _ & _ & _ & _ & _ & _ & _
        & Hsub & _);
    [apply world0_uncached | reflexivity |].
  by exists train, val, test.
Defined.

Lemma failed_transform_leaves_train_only_witness :
  ∃ w',
    PowerConsumptionDataModule.setup fit0 transform1 (Ok deaths_table)
      (Some "fit") world0 = (Raise ValueError, w')
    ∧ (∃ dl, PowerConsumptionDataModule.train_dataloader id w' = (Ok dl, w'))
    ∧ PowerConsumptionDataModule.val_dataloader id w'
      = (Raise RuntimeError, w').
Proof.
  destruct (failed_transform_leaves_train_only id fit0 transform1
              deaths_table world0 1)
    as (train & val & test & y_train & Hrows & Ht & Hv & Htr & Hraise);
    [reflexivity | reflexivity | reflexivity | reflexivity | reflexivity
    | by vm_compute |].
  assert (len test = 1) as Ht' by (rewrite Ht; reflexivity).
  assert (len val = 1) as Hv' by (rewrite Hv, Ht'; reflexivity).
  assert (len train = 2) as Htr' by (rewrite Htr, Hv', Ht'; reflexivity).
  destruct (parts_agree train val test
              [[Num 100; Num 10]; [Num 120; Num 12]] [[Num 150; Num 15]]
              [[Num 170; Num 15]])
    as (-> & -> & ->); [by rewrite <- Hrows | done | done |].
  destruct (Hraise 2 [[Num 100; Num 10]; [Num 120; Num 12]] ValueError)
    as (w' & Hrun & _ & _ & _ & _ & _ & Hval & Htrain);
    [reflexivity | reflexivity | reflexivity |].
  exists w'. split; [exact Hrun|]. split; [|exact Hval].
  apply Htrain; [reflexivity | by vm_compute | by vm_compute | by vm_compute].
Defined.
